(** * conv_docling: the reference-resolving JSON-to-HTML renderer

    A shallow embedding of [src/code.py]: [resolve_reference],
    [json_to_html], [process_text_item], [process_table_item],
    [process_picture_item] and [escape_html], together with the part of
    Python's object model these functions rely on.

    Modelling choices.
    - A document is a value of [json]: what [json.load] or Docling's
      [export_to_dict] builds, with integers for numbers; a float is
      outside the values modelled.  A [dict] is an association list in
      insertion order, read by its first binding of a key.
    - A [str] is a [string] whose characters are read as the code points
      0..255; [str.strip], [str.isdigit] and [repr] classify them as
      Unicode does on that range.
    - Conversions between [int] and [str] keep the interpreter's limit of
      4300 digits ([sys.int_info.default_max_str_digits]): [int] of a
      longer literal and the text of a longer integer raise [ValueError].
    - A Python exception is a constructor of [exn]; a call that may raise
      returns a [result].  [print] writes to the console only and is left
      out; the one call inside it that can raise, [len(children)], is kept.
*)

From Stdlib Require Import String Ascii List ZArith Lia Bool DecimalString.
Import ListNotations.

Local Open Scope list_scope.
Local Open Scope string_scope.

(** ** Values and exceptions *)

#[warnings="-register-all"]
Inductive json : Type :=
| JNull
| JBool (b : bool)
| JInt (n : Z)
| JStr (s : string)
| JList (xs : list json)
| JDict (kvs : list (string * json)).

Inductive exn : Type :=
| KeyError
| IndexError
| TypeError
| ValueError
| AttributeError.

Inductive result (A : Type) : Type :=
| Ok (a : A)
| Raise (e : exn).

Arguments Ok {A} a.
Arguments Raise {A} e.

Definition bind {A B : Type} (r : result A) (k : A -> result B) : result B :=
  match r with
  | Ok a => k a
  | Raise e => Raise e
  end.

Notation "x <- c ;; k" := (bind c (fun x => k))
  (at level 61, c at next level, right associativity).

(** ** Python's [str] methods *)

Module Py.

(** The double quote. *)
Definition dq : string := String (ascii_of_nat 34) EmptyString.

Definition code (c : ascii) : nat := nat_of_ascii c.

Definition in_range (lo hi n : nat) : bool := (lo <=? n)%nat && (n <=? hi)%nat.

(** [c.isspace()] on code points below 256: TAB..CR, FS..US, space, NEL
    and the no-break space. *)
Definition is_space (c : ascii) : bool :=
  let n := code c in
  in_range 9 13 n || in_range 28 32 n || (n =? 133)%nat || (n =? 160)%nat.

(** The characters [int] reads as decimal digits. *)
Definition is_decimal (c : ascii) : bool := in_range 48 57 (code c).

(** [c.isdigit()] on code points below 256: the decimal digits and the
    superscripts two, three and one. *)
Definition is_digit (c : ascii) : bool :=
  let n := code c in
  is_decimal c || (n =? 178)%nat || (n =? 179)%nat || (n =? 185)%nat.

Fixpoint all_chars (p : ascii -> bool) (s : string) : bool :=
  match s with
  | EmptyString => true
  | String c rest => p c && all_chars p rest
  end.

Definition is_empty (s : string) : bool :=
  match s with
  | EmptyString => true
  | String _ _ => false
  end.

(** [s.isdigit()]: at least one character, and every one a digit. *)
Definition isdigit (s : string) : bool :=
  negb (is_empty s) && all_chars is_digit s.

Fixpoint decimal_value (acc : Z) (s : string) : Z :=
  match s with
  | EmptyString => acc
  | String c rest => decimal_value (10 * acc + Z.of_nat (code c - 48)) rest
  end.

(** The most digits a conversion between [int] and [str] accepts. *)
Definition max_str_digits : nat := 4300.

(** [int(s)] for an [s] that passed [isdigit]: a superscript digit is no
    decimal literal, and [int] raises [ValueError] on it, as it does on a
    literal of more than [max_str_digits] digits, leading zeros counted. *)
Definition int_of_str (s : string) : result Z :=
  if all_chars is_decimal s && negb (is_empty s)
     && (String.length s <=? max_str_digits)%nat
  then Ok (decimal_value 0 s)
  else Raise ValueError.

Fixpoint lstrip (s : string) : string :=
  match s with
  | EmptyString => EmptyString
  | String c rest => if is_space c then lstrip rest else s
  end.

Fixpoint rstrip (s : string) : string :=
  match s with
  | EmptyString => EmptyString
  | String c rest =>
      match rstrip rest with
      | EmptyString => if is_space c then EmptyString else String c EmptyString
      | kept => String c kept
      end
  end.

(** [s.strip()] *)
Definition strip (s : string) : string := rstrip (lstrip s).

(** [s.startswith(p)] *)
Definition startswith (s p : string) : bool := prefix p s.

(** [needle in s] for two strings. *)
Fixpoint contains (needle s : string) : bool :=
  prefix needle s ||
  match s with
  | EmptyString => false
  | String _ rest => contains needle rest
  end.

(** [s.replace(old, new)]: one pass from the left over the occurrences of
    [old] that do not overlap.  [skip] counts the characters of an
    occurrence still to be dropped. *)
Fixpoint replace_from (old new : string) (skip : nat) (s : string) : string :=
  match s with
  | EmptyString => EmptyString
  | String c rest =>
      match skip with
      | S k => replace_from old new k rest
      | O =>
          if prefix old s
          then new ++ replace_from old new (String.length old - 1) rest
          else String c (replace_from old new 0 rest)
      end
  end.

Fixpoint interleave (new s : string) : string :=
  match s with
  | EmptyString => new
  | String c rest => new ++ String c (interleave new rest)
  end.

Definition replace (s old new : string) : string :=
  if is_empty old then interleave new s else replace_from old new 0 s.

(** [s.split(sep)] for a separator of one character. *)
Fixpoint split (s : string) (sep : ascii) : list string :=
  match s with
  | EmptyString => [EmptyString]
  | String c rest =>
      if Ascii.eqb c sep then EmptyString :: split rest sep
      else
        match split rest sep with
        | [] => [String c EmptyString]
        | seg :: segs => String c seg :: segs
        end
  end.

(** [sep.join(parts)] *)
Definition join (sep : string) (parts : list string) : string :=
  String.concat sep parts.

(** The decimal digits of an integer, as [str(n)] writes them. *)
Definition str_of_int (n : Z) : string := NilZero.string_of_int (Z.to_int n).

Definition hex_digit (n : nat) : ascii :=
  if (n <? 10)%nat then ascii_of_nat (48 + n) else ascii_of_nat (87 + n).

(** Whether [repr] writes the character as it is. *)
Definition is_printable (c : ascii) : bool :=
  let n := code c in
  in_range 32 126 n || (in_range 161 255 n && negb (n =? 173)%nat).

Definition repr_char (quote c : ascii) : string :=
  let n := code c in
  if Ascii.eqb c quote || (n =? 92)%nat then String (ascii_of_nat 92) (String c EmptyString)
  else if (n =? 9)%nat then "\t"
  else if (n =? 10)%nat then "\n"
  else if (n =? 13)%nat then "\r"
  else if is_printable c then String c EmptyString
  else "\x" ++ String (hex_digit (n / 16)) (String (hex_digit (n mod 16)) EmptyString).

Fixpoint concat_map (f : ascii -> string) (s : string) : string :=
  match s with
  | EmptyString => EmptyString
  | String c rest => f c ++ concat_map f rest
  end.

(** [repr(s)] of a string: single quotes, unless the string holds one and
    no double quote. *)
Definition repr_str (s : string) : string :=
  let sq := "'"%char in
  let dqc := ascii_of_nat 34 in
  let quote :=
    if contains "'" s && negb (contains dq s) then dqc else sq in
  String quote (concat_map (repr_char quote) s ++ String quote EmptyString).

End Py.

(** ** Python's operations on JSON values *)

Fixpoint dict_lookup (k : string) (kvs : list (string * json)) : option json :=
  match kvs with
  | [] => None
  | (k', v) :: rest => if String.eqb k k' then Some v else dict_lookup k rest
  end.

(** [repr(v)] *)
Fixpoint py_repr (v : json) : string :=
  match v with
  | JNull => "None"
  | JBool true => "True"
  | JBool false => "False"
  | JInt n => Py.str_of_int n
  | JStr s => Py.repr_str s
  | JList xs => "[" ++ Py.join ", " (map py_repr xs) ++ "]"
  | JDict kvs =>
      "{" ++ Py.join ", "
               (map (fun kv => let '(k, x) := kv in Py.repr_str k ++ ": " ++ py_repr x) kvs)
          ++ "}"
  end.

(** The text [str(v)] gives, which is also what an f-string writes for
    [{v}]; [py_format] below is the conversion with its failure. *)
Definition py_str (v : json) : string :=
  match v with
  | JStr s => s
  | _ => py_repr v
  end.

(** The least integer with more than [Py.max_str_digits] digits. *)
Definition str_digits_bound : Z := 10 ^ Z.of_nat Py.max_str_digits.

(** An integer of at most [Py.max_str_digits] digits, the sign apart. *)
Definition within_str_digits (n : Z) : bool := (Z.abs n <? str_digits_bound)%Z.

(** Whether every integer [str(v)] has to write is within the limit. *)
Fixpoint prints (v : json) : bool :=
  match v with
  | JInt n => within_str_digits n
  | JList xs => forallb prints xs
  | JDict kvs => forallb (fun kv => let '(_, x) := kv in prints x) kvs
  | _ => true
  end.

(** [{v}] in an f-string: the text of [v], or [ValueError] when an integer
    in it has more than [Py.max_str_digits] digits. *)
Definition py_format (v : json) : result string :=
  if prints v then Ok (py_str v) else Raise ValueError.

(** [bool(v)] *)
Definition truthy (v : json) : bool :=
  match v with
  | JNull => false
  | JBool b => b
  | JInt n => negb (n =? 0)%Z
  | JStr s => negb (Py.is_empty s)
  | JList xs => match xs with [] => false | _ => true end
  | JDict kvs => match kvs with [] => false | _ => true end
  end.

Definition is_str (v : json) (s : string) : bool :=
  match v with
  | JStr s' => String.eqb s' s
  | _ => false
  end.

(** [k in v] for a string [k]: a key of a dict, an element of a list, a
    substring of a string; any other operand raises. *)
Definition py_in (k : string) (v : json) : result bool :=
  match v with
  | JDict kvs => Ok (match dict_lookup k kvs with Some _ => true | None => false end)
  | JList xs => Ok (existsb (fun x => is_str x k) xs)
  | JStr s => Ok (Py.contains k s)
  | _ => Raise TypeError
  end.

(** [v[k]] for a string [k] *)
Definition py_getitem (v : json) (k : string) : result json :=
  match v with
  | JDict kvs =>
      match dict_lookup k kvs with
      | Some x => Ok x
      | None => Raise KeyError
      end
  | _ => Raise TypeError
  end.

Definition char_at (s : string) (i : nat) : option ascii := String.get i s.

(** [v[i]] for an integer [i >= 0] *)
Definition py_getitem_int (v : json) (i : Z) : result json :=
  match v with
  | JList xs =>
      match nth_error xs (Z.to_nat i) with
      | Some x => Ok x
      | None => Raise IndexError
      end
  | JStr s =>
      match char_at s (Z.to_nat i) with
      | Some c => Ok (JStr (String c EmptyString))
      | None => Raise IndexError
      end
  | JDict _ => Raise KeyError
  | _ => Raise TypeError
  end.

(** [v.get(k, default)] *)
Definition py_get (v : json) (k : string) (default : json) : result json :=
  match v with
  | JDict kvs =>
      match dict_lookup k kvs with
      | Some x => Ok x
      | None => Ok default
      end
  | _ => Raise AttributeError
  end.

(** [v.strip()] *)
Definition py_strip (v : json) : result string :=
  match v with
  | JStr s => Ok (Py.strip s)
  | _ => Raise AttributeError
  end.

(** [v.replace(old, new)] *)
Definition py_replace (v : json) (old new : string) : result string :=
  match v with
  | JStr s => Ok (Py.replace s old new)
  | _ => Raise AttributeError
  end.

(** [v.startswith(p)] *)
Definition py_startswith (v : json) (p : string) : result bool :=
  match v with
  | JStr s => Ok (Py.startswith s p)
  | _ => Raise AttributeError
  end.

Fixpoint chars_of (s : string) : list json :=
  match s with
  | EmptyString => []
  | String c rest => JStr (String c EmptyString) :: chars_of rest
  end.

(** What [for x in v] runs over. *)
Definition py_iter (v : json) : result (list json) :=
  match v with
  | JList xs => Ok xs
  | JStr s => Ok (chars_of s)
  | JDict kvs => Ok (map (fun kv => JStr (fst kv)) kvs)
  | _ => Raise TypeError
  end.

(** [len(v)] *)
Definition py_len (v : json) : result nat :=
  match v with
  | JList xs => Ok (List.length xs)
  | JStr s => Ok (String.length s)
  | JDict kvs => Ok (List.length kvs)
  | _ => Raise TypeError
  end.

(** [v > 1], for the values modelled. *)
Definition py_gt_one (v : json) : result bool :=
  match v with
  | JInt n => Ok (1 <? n)%Z
  | JBool _ => Ok false
  | _ => Raise TypeError
  end.

(** ** The program *)

(** [escape_html(text)] *)
Definition escape_html (text : json) : string :=
  let text :=
    match text with
    | JStr s => s
    | other => py_str other
    end in
  Py.replace
    (Py.replace
       (Py.replace
          (Py.replace
             (Py.replace text "&" "&amp;")
             "<" "&lt;")
          ">" "&gt;")
       Py.dq "&quot;")
    "'" "&#x27;".

(** The loop of [resolve_reference]: one step per path segment. *)
Fixpoint walk (path : list string) (current : json) : result json :=
  match path with
  | [] => Ok current
  | part :: rest =>
      next <- (if Py.isdigit part
               then i <- Py.int_of_str part ;; py_getitem_int current i
               else py_getitem current part) ;;
      walk rest next
  end.

(** [resolve_reference(ref_string, json_content)] *)
Definition resolve_reference (ref_string json_content : json) : result json :=
  stripped <- py_replace ref_string "#/" "" ;;
  walk (Py.split stripped "/") json_content.

(** What the text renderer does once the bold test is made: either it has
    returned already, or it goes on with a tag. *)
Inductive bold_stage : Type :=
| Returned (html : string)
| Tag (html_tag : string).

(** [process_text_item(text_item)] *)
Definition process_text_item (text_item : json) : result string :=
  raw <- py_get text_item "text" (JStr "") ;;
  text <- py_strip raw ;;
  if negb (truthy (JStr text)) then Ok ""
  else
    formatting <- py_get text_item "formatting" (JDict []) ;;
    label <- py_get text_item "label" (JStr "paragraph") ;;
    bold <- py_get formatting "bold" JNull ;;
    let stage :=
      if truthy bold then
        if (50 <? String.length text)%nat then Tag "h2"
        else
          let html_tag := "strong" in
          let text := "<" ++ html_tag ++ ">" ++ escape_html (JStr text)
                          ++ "</" ++ html_tag ++ ">" in
          Returned ("<p>" ++ text ++ "</p>")
      else Tag "p" in
    match stage with
    | Returned html => Ok html
    | Tag html_tag =>
        italic <- py_get formatting "italic" JNull ;;
        text <-
          (if truthy italic then Ok ("<em>" ++ escape_html (JStr text) ++ "</em>")
           else
             underline <- py_get formatting "underline" JNull ;;
             if truthy underline then Ok ("<u>" ++ escape_html (JStr text) ++ "</u>")
             else
               strikethrough <- py_get formatting "strikethrough" JNull ;;
               if truthy strikethrough
               then Ok ("<del>" ++ escape_html (JStr text) ++ "</del>")
               else Ok (escape_html (JStr text))) ;;
        if String.eqb html_tag "h2" then Ok ("<h2>" ++ text ++ "</h2>")
        else if is_str label "title" then Ok ("<h1>" ++ text ++ "</h1>")
        else if is_str label "heading" then Ok ("<h3>" ++ text ++ "</h3>")
        else Ok ("<p>" ++ text ++ "</p>")
    end.

(** The body of the loop over the cells of a row: the line appended for
    [cell]. *)
Definition table_cell (cell : json) : result string :=
  raw <- py_get cell "text" (JStr "") ;;
  cell_text <- py_strip raw ;;
  column_header <- py_get cell "column_header" (JBool false) ;;
  is_header <-
    (if truthy column_header then Ok true
     else row_header <- py_get cell "row_header" (JBool false) ;;
          Ok (truthy row_header)) ;;
  let tag := if is_header : bool then "th" else "td" in
  row_span <- py_get cell "row_span" (JInt 1) ;;
  col_span <- py_get cell "col_span" (JInt 1) ;;
  let span_attrs := "" in
  row_spans <- py_gt_one row_span ;;
  span_attrs <-
    (if row_spans : bool
     then shown <- py_format row_span ;;
          Ok (span_attrs ++ " rowspan=" ++ Py.dq ++ shown ++ Py.dq)
     else Ok span_attrs) ;;
  col_spans <- py_gt_one col_span ;;
  span_attrs <-
    (if col_spans : bool
     then shown <- py_format col_span ;;
          Ok (span_attrs ++ " colspan=" ++ Py.dq ++ shown ++ Py.dq)
     else Ok span_attrs) ;;
  Ok ("    <" ++ tag ++ span_attrs ++ ">" ++ escape_html (JStr cell_text)
             ++ "</" ++ tag ++ ">").

(** [for cell in row: html_parts.append(...)] *)
Fixpoint table_cells (cells : list json) (html_parts : list string)
  : result (list string) :=
  match cells with
  | [] => Ok html_parts
  | cell :: rest =>
      line <- table_cell cell ;;
      table_cells rest (html_parts ++ [line])%list
  end.

(** [for row_idx, row in enumerate(grid): ...] *)
Fixpoint table_rows (rows : list json) (html_parts : list string)
  : result (list string) :=
  match rows with
  | [] => Ok html_parts
  | row :: rest =>
      let html_parts := (html_parts ++ ["  <tr>"])%list in
      cells <- py_iter row ;;
      html_parts <- table_cells cells html_parts ;;
      table_rows rest (html_parts ++ ["  </tr>"])%list
  end.

Definition newline : string := String (ascii_of_nat 10) EmptyString.

(** [process_table_item(table_item)] *)
Definition process_table_item (table_item : json) : result string :=
  has_data <- py_in "data" table_item ;;
  no_grid <-
    (if negb has_data then Ok true
     else data <- py_getitem table_item "data" ;;
          has_grid <- py_in "grid" data ;;
          Ok (negb has_grid)) ;;
  if no_grid : bool then Ok ""
  else
    data <- py_getitem table_item "data" ;;
    grid <- py_getitem data "grid" ;;
    if negb (truthy grid) then Ok ""
    else
      let html_parts := ["<table>"] in
      rows <- py_iter grid ;;
      html_parts <- table_rows rows html_parts ;;
      let html_parts := (html_parts ++ ["</table>"])%list in
      Ok (Py.join newline html_parts).

(** [process_picture_item(picture_item)] *)
Definition process_picture_item (picture_item : json) : result string :=
  has_data <- py_in "data" picture_item ;;
  if negb has_data
  then Ok ("<div class=" ++ Py.dq ++ "image-placeholder" ++ Py.dq
             ++ ">[Missing Image]</div>")
  else
    img_data <- py_getitem picture_item "data" ;;
    img_format <- py_get picture_item "format" (JStr "png") ;;
    shown_format <- py_format img_format ;;
    shown_data <- py_format img_data ;;
    let img_src := "data:image/" ++ shown_format ++ ";base64," ++ shown_data in
    Ok ("<img src=" ++ Py.dq ++ img_src ++ Py.dq
          ++ " alt=" ++ Py.dq ++ "Embedded Image" ++ Py.dq
          ++ " style=" ++ Py.dq ++ "max-width:100%; height:auto; margin:10px 0;" ++ Py.dq
          ++ " />").

(** The [try] block of [json_to_html]: resolve, then dispatch on the
    pointer's prefix and append the fragment. *)
Definition try_block (ref json_content : json) (html_parts : list string)
  : result (list string) :=
  content_item <- resolve_reference ref json_content ;;
  is_text <- py_startswith ref "#/texts/" ;;
  if is_text : bool then
    html <- process_text_item content_item ;; Ok (html_parts ++ [html])%list
  else
    is_table <- py_startswith ref "#/tables/" ;;
    if is_table : bool then
      html <- process_table_item content_item ;; Ok (html_parts ++ [html])%list
    else
      is_picture <- py_startswith ref "#/pictures/" ;;
      if is_picture : bool then
        html <- process_picture_item content_item ;; Ok (html_parts ++ [html])%list
      else Ok html_parts.

(** [except (KeyError, IndexError): ... continue] *)
Definition caught (e : exn) : bool :=
  match e with
  | KeyError | IndexError => true
  | _ => false
  end.

(** One turn of [for child in children]. *)
Definition body_entry (json_content child : json) (html_parts : list string)
  : result (list string) :=
  has_ref <- py_in "$ref" child ;;
  if has_ref : bool then
    ref <- py_getitem child "$ref" ;;
    match try_block ref json_content html_parts with
    | Ok html_parts => Ok html_parts
    | Raise e => if caught e then Ok html_parts else Raise e
    end
  else Ok html_parts.

(** [for child in children: ...] *)
Fixpoint body_loop (json_content : json) (children : list json)
  (html_parts : list string) : result (list string) :=
  match children with
  | [] => Ok html_parts
  | child :: rest =>
      html_parts <- body_entry json_content child html_parts ;;
      body_loop json_content rest html_parts
  end.

(** [filter(None, html_parts)] *)
Definition nonempty (html_parts : list string) : list string :=
  filter (fun s => truthy (JStr s)) html_parts.

(** [json_to_html(json_content)] *)
Definition json_to_html (json_content : json) : result string :=
  let html_parts := [] in
  has_body <- py_in "body" json_content ;;
  has_children <-
    (if has_body : bool then
       body <- py_getitem json_content "body" ;; py_in "children" body
     else Ok false) ;;
  html_parts <-
    (if has_children : bool then
       body <- py_getitem json_content "body" ;;
       children <- py_getitem body "children" ;;
       _ <- py_len children ;;
       items <- py_iter children ;;
       body_loop json_content items html_parts
     else Ok html_parts) ;;
  Ok (Py.join newline (nonempty html_parts)).

(** ** Notions the statements use *)

(** A field of a dict as a value: [None] when the key is absent, which is
    what [d.get(k)] returns. *)
Definition field (k : string) (kvs : list (string * json)) : json :=
  match dict_lookup k kvs with
  | Some v => v
  | None => JNull
  end.

(** The escape of one character, as the HTML escaping table gives it. *)
Definition escape_char (c : ascii) : string :=
  if Ascii.eqb c "&" then "&amp;"
  else if Ascii.eqb c "<" then "&lt;"
  else if Ascii.eqb c ">" then "&gt;"
  else if Ascii.eqb c (ascii_of_nat 34) then "&quot;"
  else if Ascii.eqb c "'" then "&#x27;"
  else String c EmptyString.

(** The characters that must not reach the markup raw. *)
Definition raw_markup (c : ascii) : bool :=
  Ascii.eqb c "<" || Ascii.eqb c ">" || Ascii.eqb c (ascii_of_nat 34)
  || Ascii.eqb c "'".

Definition no_raw_markup (s : string) : bool :=
  Py.all_chars (fun c => negb (raw_markup c)) s.

(** The emphasis wrapping chosen by the flags of [formatting]: the first
    of italic, underline and strikethrough that is set. *)
Definition emphasis (formatting : list (string * json)) (escaped : string) : string :=
  if truthy (field "italic" formatting) then "<em>" ++ escaped ++ "</em>"
  else if truthy (field "underline" formatting) then "<u>" ++ escaped ++ "</u>"
  else if truthy (field "strikethrough" formatting) then "<del>" ++ escaped ++ "</del>"
  else escaped.

(** The element the label selects on the path that is not bold. *)
Definition labelled (label : json) (inner : string) : string :=
  if is_str label "title" then "<h1>" ++ inner ++ "</h1>"
  else if is_str label "heading" then "<h3>" ++ inner ++ "</h3>"
  else "<p>" ++ inner ++ "</p>".

(** A span attribute: written when the count exceeds one. *)
Definition span_attr (name : string) (n : Z) : string :=
  if (1 <? n)%Z then " " ++ name ++ "=" ++ Py.dq ++ Py.str_of_int n ++ Py.dq
  else "".

(** The line of a cell with text [text], header role [header] and spans
    [row_span] and [col_span]. *)
Definition cell_line (text : string) (header : bool) (row_span col_span : Z) : string :=
  let tag := if header then "th" else "td" in
  "    <" ++ tag ++ span_attr "rowspan" row_span ++ span_attr "colspan" col_span
    ++ ">" ++ escape_html (JStr (Py.strip text)) ++ "</" ++ tag ++ ">".

(** The lines one row contributes. *)
Definition row_lines (lines : list string) : list string :=
  ("  <tr>" :: lines ++ ["  </tr>"])%list.

(** The lines of a table whose rows render as the lines [liness]. *)
Definition table_lines (liness : list (list string)) : list string :=
  ("<table>" :: concat (map row_lines liness) ++ ["</table>"])%list.

(** The placeholder of a picture without payload. *)
Definition image_placeholder : string :=
  "<div class=" ++ Py.dq ++ "image-placeholder" ++ Py.dq ++ ">[Missing Image]</div>".

(** The image element whose source is [src]. *)
Definition image_element (src : string) : string :=
  "<img src=" ++ Py.dq ++ src ++ Py.dq ++ " alt=" ++ Py.dq ++ "Embedded Image" ++ Py.dq
    ++ " style=" ++ Py.dq ++ "max-width:100%; height:auto; margin:10px 0;" ++ Py.dq
    ++ " />".

(** A document without [body], or whose [body] has no [children]. *)
Definition lacks_children (document : json) : bool :=
  match document with
  | JDict d =>
      match dict_lookup "body" d with
      | None => true
      | Some (JDict b) =>
          match dict_lookup "children" b with
          | None => true
          | Some _ => false
          end
      | Some _ => false
      end
  | _ => false
  end.

(** A table node without [data], whose [data] has no [grid], or whose
    grid is the empty list. *)
Definition lacks_grid (table : json) : bool :=
  match table with
  | JDict t =>
      match dict_lookup "data" t with
      | None => true
      | Some (JDict data) =>
          match dict_lookup "grid" data with
          | None => true
          | Some (JList []) => true
          | Some _ => false
          end
      | Some _ => false
      end
  | _ => false
  end.

(** A body entry that is an object without a [$ref] field. *)
Definition lacks_ref (child : json) : bool :=
  match child with
  | JDict c =>
      match dict_lookup "$ref" c with
      | None => true
      | Some _ => false
      end
  | _ => false
  end.

(** The last and the first character of a string. *)
Fixpoint last_is (x : ascii) (s : string) : bool :=
  match s with
  | EmptyString => false
  | String c EmptyString => Ascii.eqb c x
  | String _ rest => last_is x rest
  end.

Definition first_is (x : ascii) (s : string) : bool :=
  match s with
  | EmptyString => false
  | String c _ => Ascii.eqb c x
  end.

(** A pointer entry of [body.children]. *)
Definition pointer (ref : string) : json := JDict [("$ref", JStr ref)].

(** ** Sample nodes and documents *)

Module Sample.

(** A text of 50 characters and one of 51. *)
Definition text50 : string := "Master approval letter for the <Q3> budget & plan.".
Definition text51 : string := "Master approval letter for the <Q3> budgets & plan.".

Definition bold : json := JDict [("bold", JBool true)].
Definition bold_italic : json := JDict [("bold", JBool true); ("italic", JBool true)].

Definition text_node (text : string) (formatting : json) (label : string) : json :=
  JDict [("text", JStr text); ("formatting", formatting); ("label", JStr label)].

Definition cells : list json :=
  [JDict [("text", JStr "a"); ("row_span", JInt 2)];
   JDict [("text", JStr "b"); ("column_header", JBool true); ("col_span", JInt 3)]].

Definition table : json := JDict [("data", JDict [("grid", JList [JList cells])])].

Definition picture : json := JDict [("data", JStr "QQ=="); ("format", JStr "jpeg")].

(** A document with three texts (the last one blank), one table and one
    picture; its body points at the first text, at a text that does not
    exist, at the blank text, at the picture and at the second text. *)
Definition children : list json :=
  [pointer "#/texts/0"; pointer "#/texts/99"; pointer "#/texts/2";
   pointer "#/pictures/0"; pointer "#/texts/1"].

Definition body : list (string * json) := [("children", JList children)].

Definition collections : list (string * json) :=
  [("texts",
    JList [text_node "  Hello <b> & 'x'  " (JDict []) "title";
           text_node "bold one" bold "paragraph";
           text_node "   " (JDict []) "paragraph"]);
   ("tables", JList [table]);
   ("pictures", JList [picture])].

Definition fields : list (string * json) := ("body", JDict body) :: collections.

Definition document : json := JDict fields.

(** The same collections under a body whose second pointer, between two
    pointers that resolve, applies the segment [title] to the list of
    texts. *)
Definition misshapen_fields : list (string * json) :=
  ("body",
   JDict [("children",
           JList [pointer "#/texts/0"; pointer "#/texts/title"; pointer "#/texts/1"])])
    :: collections.

Definition misshapen : json := JDict misshapen_fields.

(** An entry that has no [$ref], and a body that holds it between two
    pointers. *)
Definition unmarked : json := JDict [("cref", JStr "#/texts/0")].

Definition mixed_fields : list (string * json) :=
  ("body",
   JDict [("children", JList [pointer "#/texts/0"; unmarked; pointer "#/texts/1"])])
    :: collections.

End Sample.

(** ** Further notions *)

(** The five characters [escape_html] rewrites. *)
Definition special (c : ascii) : bool := Ascii.eqb c "&" || raw_markup c.

(** A string without any of them. *)
Definition clean (s : string) : bool := Py.all_chars (fun c => negb (special c)) s.

(** Reading the five entities back, one pass from the left; [skip] counts
    the characters of an entity still to be dropped.  The program has no
    such function: it serves to show that the escaping loses nothing. *)
Fixpoint unescape_from (skip : nat) (s : string) : string :=
  match s with
  | EmptyString => EmptyString
  | String c rest =>
      match skip with
      | S k => unescape_from k rest
      | O =>
          if prefix "&amp;" s then String "&" (unescape_from 4 rest)
          else if prefix "&lt;" s then String "<" (unescape_from 3 rest)
          else if prefix "&gt;" s then String ">" (unescape_from 3 rest)
          else if prefix "&quot;" s then String (ascii_of_nat 34) (unescape_from 5 rest)
          else if prefix "&#x27;" s then String "'" (unescape_from 5 rest)
          else String c (unescape_from 0 rest)
      end
  end.

Definition unescape (s : string) : string := unescape_from 0 s.

(** [r] raises nothing but exceptions of [allowed]. *)
Definition raises_within {A : Type} (allowed : exn -> bool) (r : result A) : Prop :=
  match r with
  | Ok _ => True
  | Raise e => allowed e = true
  end.

(** The exceptions the handler of [json_to_html] lets through. *)
Definition uncaught (e : exn) : bool := negb (caught e).

(** What [process_text_item] returns for trimmed text [text] that is not
    empty, under the flags [formatting] and the label [label]. *)
Definition text_html (formatting : list (string * json)) (label : json)
  (text : string) : string :=
  let escaped := escape_html (JStr text) in
  if truthy (field "bold" formatting) then
    if (50 <? String.length text)%nat
    then "<h2>" ++ emphasis formatting escaped ++ "</h2>"
    else "<p><strong>" ++ escaped ++ "</strong></p>"
  else labelled label (emphasis formatting escaped).

(** The text nodes [process_text_item] renders: an object whose [text] is
    a string or left out and, unless the text is blank, whose [formatting]
    is an object or left out. *)
Definition text_item_shape (v : json) : bool :=
  match v with
  | JDict t =>
      match dict_lookup "text" t with
      | None => true
      | Some (JStr s) =>
          Py.is_empty (Py.strip s)
          || match dict_lookup "formatting" t with
             | None | Some (JDict _) => true
             | Some _ => false
             end
      | Some _ => false
      end
  | _ => false
  end.

(** A span as the cell line shows it: the integer of the field, and 1 for
    a field left out or a boolean (which never exceeds 1). *)
Definition span_value (v : option json) : Z :=
  match v with
  | Some (JInt n) => n
  | _ => 1%Z
  end.

(** A span that cannot be compared with 1: a string, [null], a list or
    an object. *)
Definition bad_span (v : option json) : bool :=
  match v with
  | Some (JStr _) | Some JNull | Some (JList _) | Some (JDict _) => true
  | _ => false
  end.

(** A value that is no list and no object: a string, an integer, a
    boolean or [null]. *)
Definition scalar (v : json) : bool :=
  match v with
  | JList _ | JDict _ => false
  | _ => true
  end.

(** A span the interpreter can write where the cell line needs it: any
    but an integer of more than [Py.max_str_digits] digits above 1. *)
Definition span_prints (v : option json) : bool :=
  match v with
  | Some (JInt n) => (n <? str_digits_bound)%Z
  | _ => true
  end.

(** The renderer [json_to_html] calls for a pointer into the collection
    [kind]. *)
Definition renderer_of (kind : string) : json -> result string :=
  if String.eqb kind "texts" then process_text_item
  else if String.eqb kind "tables" then process_table_item
  else process_picture_item.

(** The opening and closing markup [process_text_item] can put around the
    escaped text. *)
Definition text_wrappers : list (string * string) :=
  ("<p><strong>", "</strong></p>")
    :: flat_map
         (fun outer : string * string =>
            map (fun inner : string * string =>
                   (fst outer ++ fst inner, snd inner ++ snd outer))
                [("", ""); ("<em>", "</em>"); ("<u>", "</u>"); ("<del>", "</del>")])
         [("<h2>", "</h2>"); ("<h1>", "</h1>"); ("<h3>", "</h3>"); ("<p>", "</p>")].

(** ** Malformed nodes and documents *)

Module Edge.

(** A document whose first text has [null] for text. *)
Definition null_text : json :=
  JDict [("body",
          JDict [("children", JList [pointer "#/texts/0"; pointer "#/texts/1"])]);
         ("texts", JList [JDict [("text", JNull)]; JDict [("text", JStr "fine")]])].

(** A body whose second entry points at a text with [null] for text,
    between two pointers that render. *)
Definition broken_middle_children : list json :=
  [pointer "#/texts/1"; pointer "#/texts/0"; pointer "#/texts/1"].

Definition broken_middle_fields : list (string * json) :=
  [("body", JDict [("children", JList broken_middle_children)]);
   ("texts", JList [JDict [("text", JNull)]; JDict [("text", JStr "fine")]])].

End Edge.

(** ** Strings *)

Lemma append_assoc (a b c : string) : (a ++ b) ++ c = a ++ (b ++ c).
Proof.
  induction a as [|x a IH]; simpl; [reflexivity|].
  now rewrite IH.
Qed.

Lemma prefix_empty (s : string) : prefix "" s = true.
Proof. destruct s; reflexivity. Qed.

Lemma all_chars_app (p : ascii -> bool) (a b : string) :
  Py.all_chars p (a ++ b) = Py.all_chars p a && Py.all_chars p b.
Proof.
  induction a as [|x a IH]; simpl; [reflexivity|].
  now rewrite IH, andb_assoc.
Qed.

Lemma concat_map_app (f : ascii -> string) (a b : string) :
  Py.concat_map f (a ++ b) = Py.concat_map f a ++ Py.concat_map f b.
Proof.
  induction a as [|x a IH]; simpl; [reflexivity|].
  now rewrite IH, append_assoc.
Qed.

Lemma all_chars_concat_map (p : ascii -> bool) (f : ascii -> string) (s : string) :
  (forall c, Py.all_chars p (f c) = true) ->
  Py.all_chars p (Py.concat_map f s) = true.
Proof.
  intros E; induction s as [|x s IH]; simpl; [reflexivity|].
  now rewrite all_chars_app, E, IH.
Qed.

(** Replacing a one-character pattern rewrites the string character by
    character. *)
Lemma replace_one_char (s : string) (c : ascii) (new : string) :
  Py.replace s (String c EmptyString) new
  = Py.concat_map (fun x => if Ascii.eqb x c then new else String x EmptyString) s.
Proof.
  unfold Py.replace; simpl Py.is_empty; cbv iota.
  induction s as [|x s IH]; [reflexivity|].
  simpl. destruct (ascii_dec c x) as [->|N].
  - now rewrite prefix_empty, Ascii.eqb_refl, IH.
  - destruct (Ascii.eqb x c) eqn:E.
    + apply Ascii.eqb_eq in E. congruence.
    + simpl. now rewrite IH.
Qed.

(** The five replacements, one after the other, on one character. *)
Lemma replacements_on_char (c : ascii) :
  Py.concat_map (fun x => if Ascii.eqb x "'" then "&#x27;" else String x EmptyString)
    (Py.concat_map (fun x => if Ascii.eqb x (ascii_of_nat 34) then "&quot;" else String x EmptyString)
       (Py.concat_map (fun x => if Ascii.eqb x ">" then "&gt;" else String x EmptyString)
          (Py.concat_map (fun x => if Ascii.eqb x "<" then "&lt;" else String x EmptyString)
             (if Ascii.eqb c "&" then "&amp;" else String c EmptyString))))
  = escape_char c.
Proof.
  destruct c as [[] [] [] [] [] [] [] []]; reflexivity.
Qed.

Lemma escape_char_no_raw (c : ascii) : no_raw_markup (escape_char c) = true.
Proof.
  destruct c as [[] [] [] [] [] [] [] []]; reflexivity.
Qed.

Lemma escape_html_by_char (text : json) :
  escape_html text = Py.concat_map escape_char (py_str text).
Proof.
  assert (E : forall s,
             Py.replace (Py.replace (Py.replace (Py.replace (Py.replace s "&" "&amp;")
               "<" "&lt;") ">" "&gt;") Py.dq "&quot;") "'" "&#x27;"
             = Py.concat_map escape_char s).
  { intros s. unfold Py.dq. rewrite !replace_one_char.
    induction s as [|x s IH]; [reflexivity|].
    cbn [Py.concat_map]. rewrite !concat_map_app, IH.
    f_equal. apply replacements_on_char. }
  destruct text; apply E.
Qed.

(** ** The text renderer *)

Lemma py_get_field (f : list (string * json)) (k : string) :
  py_get (JDict f) k JNull = Ok (field k f).
Proof.
  unfold py_get, field. now destruct (dict_lookup k f).
Qed.

Lemma long_not_empty (s : string) (n : nat) :
  (n < String.length s)%nat -> Py.is_empty s = false.
Proof.
  destruct s; simpl; [lia|reflexivity].
Qed.

(** Normalises the nesting of string concatenations on both sides. *)
Ltac str_norm :=
  unfold Py.dq; repeat (progress cbn [append] || rewrite append_assoc);
  try reflexivity.

(** The two outcomes of the renderer on a bold node with text. *)
Lemma process_text_item_bold (t f : list (string * json)) (s : string) :
  dict_lookup "text" t = Some (JStr s) ->
  dict_lookup "formatting" t = Some (JDict f) ->
  truthy (field "bold" f) = true ->
  Py.is_empty (Py.strip s) = false ->
  process_text_item (JDict t)
  = if (50 <? String.length (Py.strip s))%nat
    then Ok ("<h2>" ++ emphasis f (escape_html (JStr (Py.strip s))) ++ "</h2>")
    else Ok ("<p><strong>" ++ escape_html (JStr (Py.strip s)) ++ "</strong></p>").
Proof.
  intros Htext Hfmt Hbold Hne.
  unfold process_text_item, py_get at 1 2 3.
  rewrite Htext, Hfmt. cbn [bind py_strip truthy]. rewrite Hne. cbn [negb].
  replace (match dict_lookup "label" t with Some x => Ok x | None => Ok (JStr "paragraph") end)
    with (Ok (match dict_lookup "label" t with Some x => x | None => JStr "paragraph" end))
    by now destruct (dict_lookup "label" t).
  cbn [bind]. rewrite !py_get_field. cbn [bind]. rewrite Hbold.
  destruct (50 <? String.length (Py.strip s))%nat.
  - unfold emphasis.
    destruct (truthy (field "italic" f)); [reflexivity|].
    cbn [bind]. destruct (truthy (field "underline" f)); [reflexivity|].
    cbn [bind]. destruct (truthy (field "strikethrough" f)); reflexivity.
  - f_equal. str_norm.
Qed.

(** C2, as the code has it: a bold text node whose trimmed text is longer
    than 50 characters renders as [<h2>] around the escaped text wrapped
    in the emphasis its flags select (italic, else underline, else
    strikethrough, else none), whatever its label; the result is the bare
    [<h2>] around the escaped text when none of the three flags is set. *)
Theorem long_bold_is_h2 (t f : list (string * json)) (s : string) :
  dict_lookup "text" t = Some (JStr s) ->
  dict_lookup "formatting" t = Some (JDict f) ->
  truthy (field "bold" f) = true ->
  (50 < String.length (Py.strip s))%nat ->
  process_text_item (JDict t)
  = Ok ("<h2>" ++ emphasis f (escape_html (JStr (Py.strip s))) ++ "</h2>")
  /\ (truthy (field "italic" f) = false ->
      truthy (field "underline" f) = false ->
      truthy (field "strikethrough" f) = false ->
      process_text_item (JDict t)
      = Ok ("<h2>" ++ escape_html (JStr (Py.strip s)) ++ "</h2>")).
Proof.
  intros Htext Hfmt Hbold Hlen.
  assert (E : process_text_item (JDict t)
              = Ok ("<h2>" ++ emphasis f (escape_html (JStr (Py.strip s))) ++ "</h2>")).
  { rewrite (process_text_item_bold t f s Htext Hfmt Hbold (long_not_empty _ _ Hlen)).
    apply Nat.ltb_lt in Hlen. now rewrite Hlen. }
  split; [exact E|].
  intros Hi Hu Hs. rewrite E. unfold emphasis. now rewrite Hi, Hu, Hs.
Qed.

Lemma long_bold_is_h2_witness :
  process_text_item (Sample.text_node Sample.text51 Sample.bold_italic "title")
  = Ok ("<h2><em>Master approval letter for the &lt;Q3&gt; budgets &amp; plan.</em></h2>").
Proof.
  refine (proj1 (long_bold_is_h2
            [("text", JStr Sample.text51); ("formatting", Sample.bold_italic);
             ("label", JStr "title")]
            [("bold", JBool true); ("italic", JBool true)]
            Sample.text51 eq_refl eq_refl eq_refl _)).
  vm_compute. lia.
Defined.

(** C2 fails as stated: on a bold and italic node of 51 characters the
    heading holds the [<em>] wrapping, so it is not [<h2>] around the
    escaped text alone. *)
Lemma long_bold_italic_keeps_emphasis :
  truthy (field "bold" [("bold", JBool true); ("italic", JBool true)]) = true
  /\ (50 < String.length (Py.strip Sample.text51))%nat
  /\ process_text_item (Sample.text_node Sample.text51 Sample.bold_italic "paragraph")
     = Ok ("<h2><em>" ++ escape_html (JStr (Py.strip Sample.text51)) ++ "</em></h2>")
  /\ process_text_item (Sample.text_node Sample.text51 Sample.bold_italic "paragraph")
     <> Ok ("<h2>" ++ escape_html (JStr (Py.strip Sample.text51)) ++ "</h2>").
Proof.
  split; [reflexivity|]. split; [vm_compute; lia|].
  split; [reflexivity|]. vm_compute. discriminate.
Qed.

(** C3: a bold text node whose trimmed text has exactly 50 characters
    renders as [<p><strong>] escaped text [</strong></p>], whatever its
    label and other flags; one of exactly 51 characters renders as an
    [<h2>] element. *)
Theorem bold_length_boundary (t f : list (string * json)) (s : string) :
  dict_lookup "text" t = Some (JStr s) ->
  dict_lookup "formatting" t = Some (JDict f) ->
  truthy (field "bold" f) = true ->
  (String.length (Py.strip s) = 50%nat ->
   process_text_item (JDict t)
   = Ok ("<p><strong>" ++ escape_html (JStr (Py.strip s)) ++ "</strong></p>"))
  /\ (String.length (Py.strip s) = 51%nat ->
      exists inner, process_text_item (JDict t) = Ok ("<h2>" ++ inner ++ "</h2>")).
Proof.
  intros Htext Hfmt Hbold. split; intros Hlen.
  - rewrite (process_text_item_bold t f s Htext Hfmt Hbold);
      [now rewrite Hlen | apply (long_not_empty _ 0); lia].
  - exists (emphasis f (escape_html (JStr (Py.strip s)))).
    rewrite (process_text_item_bold t f s Htext Hfmt Hbold);
      [now rewrite Hlen | apply (long_not_empty _ 0); lia].
Qed.

Lemma bold_length_boundary_witness :
  process_text_item (Sample.text_node Sample.text50 Sample.bold "heading")
  = Ok "<p><strong>Master approval letter for the &lt;Q3&gt; budget &amp; plan.</strong></p>"
  /\ exists inner,
       process_text_item (Sample.text_node Sample.text51 Sample.bold "heading")
       = Ok ("<h2>" ++ inner ++ "</h2>").
Proof.
  split.
  - exact (proj1 (bold_length_boundary
              [("text", JStr Sample.text50); ("formatting", Sample.bold);
               ("label", JStr "heading")]
              [("bold", JBool true)] Sample.text50 eq_refl eq_refl eq_refl) eq_refl).
  - exact (proj2 (bold_length_boundary
              [("text", JStr Sample.text51); ("formatting", Sample.bold);
               ("label", JStr "heading")]
              [("bold", JBool true)] Sample.text51 eq_refl eq_refl eq_refl) eq_refl).
Defined.

(** ** The table renderer *)

Lemma header_flag_default (c : list (string * json)) (k : string) :
  py_get (JDict c) k (JBool false) = Ok (match dict_lookup k c with
                                         | Some v => v
                                         | None => JBool false
                                         end)
  /\ truthy (match dict_lookup k c with Some v => v | None => JBool false end)
     = truthy (field k c).
Proof.
  unfold py_get, field. now destruct (dict_lookup k c).
Qed.

(** The line of one cell whose text is a string and whose spans are
    integers (or left out) of at most 4300 digits. *)
Lemma table_cell_line (c : list (string * json)) (s : string) (r k : Z) :
  py_get (JDict c) "text" (JStr "") = Ok (JStr s) ->
  py_get (JDict c) "row_span" (JInt 1) = Ok (JInt r) ->
  py_get (JDict c) "col_span" (JInt 1) = Ok (JInt k) ->
  within_str_digits r = true ->
  within_str_digits k = true ->
  table_cell (JDict c)
  = Ok (cell_line s
          (truthy (field "column_header" c) || truthy (field "row_header" c)) r k).
Proof.
  intros Htext Hr Hk Hwr Hwk. unfold table_cell.
  rewrite Htext, Hr, Hk. cbn [bind py_strip].
  destruct (header_flag_default c "column_header") as [E1 T1].
  destruct (header_flag_default c "row_header") as [E2 T2].
  rewrite E1. cbn [bind]. rewrite T1, E2. unfold cell_line, span_attr, py_format.
  cbn [prints]. rewrite Hwr, Hwk.
  destruct (truthy (field "column_header" c)); cbn [bind orb]; rewrite ?T2;
    destruct (truthy (field "row_header" c));
    cbn [bind py_gt_one py_str py_repr];
    destruct (1 <? r)%Z; destruct (1 <? k)%Z; cbn [bind]; f_equal; str_norm.
Qed.

Lemma table_cells_lines (cells : list json) (html_parts out : list string) :
  table_cells cells html_parts = Ok out ->
  exists lines,
    Forall2 (fun cell line => table_cell cell = Ok line) cells lines
    /\ out = (html_parts ++ lines)%list.
Proof.
  revert html_parts. induction cells as [|cell cells IH]; intros parts; simpl.
  - intros [= <-]. exists []. split; [constructor | now rewrite app_nil_r].
  - destruct (table_cell cell) as [line|e] eqn:E; simpl; [|discriminate].
    intros H. destruct (IH _ H) as (lines & F & ->).
    exists (line :: lines). split; [now constructor | now rewrite <- app_assoc].
Qed.

Lemma table_rows_lines (rows : list json) (html_parts out : list string) :
  table_rows rows html_parts = Ok out ->
  exists liness,
    Forall2 (fun row lines =>
               exists cells, py_iter row = Ok cells
                 /\ Forall2 (fun cell line => table_cell cell = Ok line) cells lines)
            rows liness
    /\ out = (html_parts ++ concat (map row_lines liness))%list.
Proof.
  revert html_parts. induction rows as [|row rows IH]; intros parts; simpl.
  - intros [= <-]. exists []. split; [constructor | now rewrite app_nil_r].
  - destruct (py_iter row) as [cells|e] eqn:E; simpl; [|discriminate].
    destruct (table_cells cells (parts ++ ["  <tr>"])) as [mid|e] eqn:C; simpl;
      [|discriminate].
    intros H. destruct (table_cells_lines _ _ _ C) as (lines & F & ->).
    destruct (IH _ H) as (liness & FF & ->).
    exists (lines :: liness). split.
    + constructor; [now exists cells | exact FF].
    + unfold row_lines. simpl. now rewrite <- !app_assoc.
Qed.

Lemma Forall2_nth {A B : Type} (R : A -> B -> Prop) (xs : list A) (ys : list B)
  (i : nat) (x : A) :
  Forall2 R xs ys -> nth_error xs i = Some x ->
  exists y, nth_error ys i = Some y /\ R x y.
Proof.
  intros F. revert i. induction F as [|x0 y0 xs ys Rxy F IH]; intros i.
  - now destruct i.
  - destruct i as [|i]; simpl.
    + intros [= <-]. now exists y0.
    + apply IH.
Qed.

Lemma In_concat_row (liness : list (list string)) (lines : list string)
  (line : string) :
  In lines liness -> In line lines -> In line (concat (map row_lines liness)).
Proof.
  intros Hl Hi. apply in_concat. exists (row_lines lines). split.
  - now apply in_map.
  - unfold row_lines. right. apply in_or_app. now left.
Qed.

(** C6: for a cell whose spans are integers of at most 4300 digits (the
    most the interpreter writes), the line [process_table_item] writes is
    [<td] or [<th], then [ rowspan="r"] exactly when the cell's [row_span]
    r exceeds 1, then [ colspan="k"] exactly when its [col_span] k exceeds
    1, then [>], the escaped text and the closing tag; with both spans 1
    the opening tag is the plain [<td>] or [<th>]; and that line is one of
    the lines of the table the renderer returns. *)
Theorem table_cell_spans (c : list (string * json)) (s : string) (r k : Z) :
  py_get (JDict c) "text" (JStr "") = Ok (JStr s) ->
  py_get (JDict c) "row_span" (JInt 1) = Ok (JInt r) ->
  py_get (JDict c) "col_span" (JInt 1) = Ok (JInt k) ->
  within_str_digits r = true ->
  within_str_digits k = true ->
  let header := truthy (field "column_header" c) || truthy (field "row_header" c) in
  let tag := if header then "th" else "td" in
  let text := escape_html (JStr (Py.strip s)) in
  table_cell (JDict c)
  = Ok ("    <" ++ tag
          ++ (if (1 <? r)%Z then " rowspan=" ++ Py.dq ++ Py.str_of_int r ++ Py.dq else "")
          ++ (if (1 <? k)%Z then " colspan=" ++ Py.dq ++ Py.str_of_int k ++ Py.dq else "")
          ++ ">" ++ text ++ "</" ++ tag ++ ">")
  /\ (r = 1%Z -> k = 1%Z ->
      table_cell (JDict c) = Ok ("    <" ++ tag ++ ">" ++ text ++ "</" ++ tag ++ ">"))
  /\ (forall t data rows cells i j out,
        dict_lookup "data" t = Some (JDict data) ->
        dict_lookup "grid" data = Some (JList rows) ->
        nth_error rows i = Some (JList cells) ->
        nth_error cells j = Some (JDict c) ->
        process_table_item (JDict t) = Ok out ->
        exists lines,
          out = Py.join newline lines /\ In (cell_line s header r k) lines).
Proof.
  intros Htext Hr Hk Hwr Hwk header tag text.
  pose proof (table_cell_line c s r k Htext Hr Hk Hwr Hwk) as E.
  fold header in E. split; [|split].
  - rewrite E. unfold cell_line, span_attr. fold tag text.
    destruct (1 <? r)%Z; destruct (1 <? k)%Z; f_equal; str_norm.
  - intros -> ->. rewrite E. reflexivity.
  - intros t data rows cells i j out Hdata Hgrid Hrow Hcell.
    unfold process_table_item, py_in, py_getitem.
    rewrite Hdata. cbn [bind negb]. rewrite Hgrid. cbn [bind negb].
    destruct rows as [|row0 rows0] eqn:Hrows; [now destruct i|].
    rewrite <- Hrows in *. replace (truthy (JList rows)) with true by now rewrite Hrows.
    cbn [negb py_iter bind].
    destruct (table_rows rows ["<table>"]) as [parts|e] eqn:T; cbn [bind];
      [|discriminate].
    intros [= <-].
    destruct (table_rows_lines _ _ _ T) as (liness & F & ->).
    destruct (Forall2_nth _ _ _ _ _ F Hrow) as (lines & Hl & cells' & Hiter & Fc).
    simpl in Hiter. injection Hiter as <-.
    destruct (Forall2_nth _ _ _ _ _ Fc Hcell) as (line & Hline & Hc).
    rewrite E in Hc. injection Hc as <-.
    eexists. split; [reflexivity|].
    apply in_or_app. left. right.
    apply (In_concat_row liness lines); eauto using nth_error_In.
Qed.

Lemma table_cell_spans_witness :
  table_cell (JDict [("text", JStr " a<b "); ("row_span", JInt 2); ("col_span", JInt 1)])
  = Ok ("    <td rowspan=" ++ Py.dq ++ "2" ++ Py.dq ++ ">a&lt;b</td>").
Proof.
  exact (proj1 (table_cell_spans
                  [("text", JStr " a<b "); ("row_span", JInt 2); ("col_span", JInt 1)]
                  " a<b " 2 1 eq_refl eq_refl eq_refl eq_refl eq_refl)).
Defined.

(** ** The picture renderer *)

(** C7: a picture node without a [data] field renders as the placeholder,
    which is no image element; one with payload [p] and format [f] renders
    as the image element whose source is [data:image/f;base64,p], and the
    format is [png] when the node gives none. *)
Theorem picture_placeholder_or_data_uri (node : list (string * json)) :
  (dict_lookup "data" node = None ->
   process_picture_item (JDict node) = Ok image_placeholder
   /\ Py.contains "<img" image_placeholder = false)
  /\ (forall p f,
        dict_lookup "data" node = Some (JStr p) ->
        dict_lookup "format" node = Some (JStr f) ->
        process_picture_item (JDict node)
        = Ok (image_element ("data:image/" ++ f ++ ";base64," ++ p)))
  /\ (forall p,
        dict_lookup "data" node = Some (JStr p) ->
        dict_lookup "format" node = None ->
        process_picture_item (JDict node)
        = Ok (image_element ("data:image/png;base64," ++ p))).
Proof.
  unfold process_picture_item, py_in, py_getitem, py_get.
  split; [|split].
  - intros ->. split; reflexivity.
  - intros p f -> ->. cbn [bind negb py_format prints py_str].
    unfold image_element. f_equal; str_norm.
  - intros p -> ->. cbn [bind negb py_format prints py_str].
    unfold image_element. f_equal; str_norm.
Qed.

Lemma picture_placeholder_or_data_uri_witness :
  process_picture_item (JDict [("label", JStr "picture")]) = Ok image_placeholder
  /\ process_picture_item (JDict [("data", JStr "QQ=="); ("format", JStr "jpeg")])
     = Ok (image_element "data:image/jpeg;base64,QQ==")
  /\ process_picture_item (JDict [("data", JStr "QQ==")])
     = Ok (image_element "data:image/png;base64,QQ==").
Proof.
  split; [|split].
  - exact (proj1 (proj1 (picture_placeholder_or_data_uri [("label", JStr "picture")])
                    eq_refl)).
  - exact (proj1 (proj2 (picture_placeholder_or_data_uri
                           [("data", JStr "QQ=="); ("format", JStr "jpeg")]))
             "QQ==" "jpeg" eq_refl eq_refl).
  - exact (proj2 (proj2 (picture_placeholder_or_data_uri [("data", JStr "QQ==")]))
             "QQ==" eq_refl eq_refl).
Defined.

(** ** The reference resolver *)

(** Removal of the marker [#/], two characters at a time. *)
Lemma strip_marker_cons2 (c d : ascii) (s : string) :
  Py.replace (String c (String d s)) "#/" ""
  = if Ascii.eqb c "#" && Ascii.eqb d "/" then Py.replace s "#/" ""
    else String c (Py.replace (String d s) "#/" "").
Proof.
  unfold Py.replace. cbn [Py.is_empty Py.replace_from prefix String.length Nat.sub append].
  destruct (ascii_dec "#" c) as [<-|Nc]; cbn [andb].
  - destruct (ascii_dec "/" d) as [<-|Nd].
    + now rewrite prefix_empty.
    + destruct (Ascii.eqb d "/") eqn:E; [|reflexivity].
      apply Ascii.eqb_eq in E. congruence.
  - destruct (Ascii.eqb c "#") eqn:E; [|reflexivity].
    apply Ascii.eqb_eq in E. congruence.
Qed.

Lemma strip_marker_one (c : ascii) :
  Py.replace (String c "") "#/" "" = String c "".
Proof.
  unfold Py.replace. cbn [Py.is_empty Py.replace_from prefix].
  now destruct (ascii_dec "#" c).
Qed.

(** Induction on a string by its first character and by its first two. *)
Lemma string_ind2 (P : string -> Prop) :
  P "" ->
  (forall c, P (String c "")) ->
  (forall c d s, P s -> P (String d s) -> P (String c (String d s))) ->
  forall s, P s.
Proof.
  intros H0 H1 H2 s.
  enough (P s /\ forall c, P (String c s)) by tauto.
  induction s as [|d s [IH1 IH2]]; split; auto.
Qed.

(** The marker between [a] and [b] is removed, and the removal goes on
    independently on both sides. *)
Lemma strip_marker_between (a b : string) :
  Py.replace (a ++ "#/" ++ b) "#/" ""
  = Py.replace a "#/" "" ++ Py.replace b "#/" "".
Proof.
  induction a as [| c | c d a IH1 IH2] using string_ind2.
  - cbn [append]. now rewrite strip_marker_cons2.
  - cbn [append]. rewrite strip_marker_cons2, strip_marker_one.
    replace (Ascii.eqb "#" "/") with false by reflexivity.
    rewrite andb_false_r. cbn [append]. f_equal.
    now rewrite strip_marker_cons2.
  - cbn [append] in *. rewrite !strip_marker_cons2.
    destruct (Ascii.eqb c "#" && Ascii.eqb d "/"); [exact IH1|].
    cbn [append]. now rewrite IH2.
Qed.

(** Without a [#] at the end of [a] meeting a [/] at the start of [b], the
    removal on [a ++ b] is the removal on each side. *)
Lemma strip_marker_app (a b : string) :
  last_is "#" a && first_is "/" b = false ->
  Py.replace (a ++ b) "#/" "" = Py.replace a "#/" "" ++ Py.replace b "#/" "".
Proof.
  induction a as [| c | c d a IH1 IH2] using string_ind2; intros H.
  - reflexivity.
  - cbn [append]. rewrite strip_marker_one. cbn [append].
    destruct b as [|e b]; [now rewrite strip_marker_one|].
    rewrite strip_marker_cons2. cbn [last_is first_is] in H. now rewrite H.
  - cbn [append] in *. rewrite !strip_marker_cons2.
    destruct (Ascii.eqb c "#" && Ascii.eqb d "/").
    + apply IH1. destruct a; [reflexivity | exact H].
    + cbn [append]. rewrite IH2; [reflexivity|].
      destruct a; exact H.
Qed.

(** C9, as the code has it: [resolve_reference] removes the marker [#/]
    wherever it stands, in one pass from the left, before it splits the
    pointer.  So a leading marker changes nothing: [#/s] resolves as [s]
    does.  A pointer with a marker between [a] and [b] is walked along
    what the removal leaves of [a] followed by what it leaves of [b]; it
    resolves as [a ++ b] does, provided joining them forms no new marker,
    that is unless [a] ends in [#] and [b] starts with [/]. *)
Theorem resolve_reference_marker_removed (document : json) (a b : string) :
  resolve_reference (JStr ("#/" ++ b)) document = resolve_reference (JStr b) document
  /\ resolve_reference (JStr (a ++ "#/" ++ b)) document
     = walk (Py.split (Py.replace a "#/" "" ++ Py.replace b "#/" "") "/") document
  /\ (last_is "#" a && first_is "/" b = false ->
      resolve_reference (JStr (a ++ "#/" ++ b)) document
      = resolve_reference (JStr (a ++ b)) document).
Proof.
  unfold resolve_reference, py_replace. cbn [bind].
  pose proof (strip_marker_between "" b) as P.
  change ("" ++ "#/" ++ b) with ("#/" ++ b) in P.
  change (Py.replace "" "#/" "" ++ Py.replace b "#/" "") with (Py.replace b "#/" "") in P.
  rewrite P, strip_marker_between.
  split; [reflexivity|]. split; [reflexivity|].
  intros H. now rewrite (strip_marker_app a b H).
Qed.

Lemma resolve_reference_marker_removed_witness :
  resolve_reference (JStr ("#/" ++ "texts/1")) Sample.document
  = resolve_reference (JStr "texts/1") Sample.document
  /\ resolve_reference (JStr ("#/te" ++ "#/" ++ "xts/1")) Sample.document
     = resolve_reference (JStr ("#/te" ++ "xts/1")) Sample.document.
Proof.
  split.
  - exact (proj1 (resolve_reference_marker_removed Sample.document "" "texts/1")).
  - exact (proj2 (proj2 (resolve_reference_marker_removed
                           Sample.document "#/te" "xts/1")) eq_refl).
Defined.

(** C9 fails as stated for a marker whose removal forms a new one: in
    [##//texts/0] the marker stands between [#] and [/texts/0]; the pointer
    without it is [#/texts/0], which resolves to the first text, while the
    pointer itself is walked as [#], [texts], [0] and fails on the key
    [#]. *)
Lemma marker_inside_marker_differs :
  resolve_reference (JStr ("#" ++ "#/" ++ "/texts/0")) Sample.document = Raise KeyError
  /\ resolve_reference (JStr ("#" ++ "/texts/0")) Sample.document
     = Ok (Sample.text_node "  Hello <b> & 'x'  " (JDict []) "title")
  /\ resolve_reference (JStr ("#" ++ "#/" ++ "/texts/0")) Sample.document
     <> resolve_reference (JStr ("#" ++ "/texts/0")) Sample.document.
Proof.
  split; [reflexivity|]. split; [reflexivity|]. vm_compute. discriminate.
Qed.

(** ** The dispatch loop *)

Lemma bind_ok {A B : Type} (r : result A) (k : A -> result B) (b : B) :
  bind r k = Ok b -> exists a, r = Ok a /\ k a = Ok b.
Proof.
  destruct r as [a|e]; simpl; [|discriminate]. intros H. now exists a.
Qed.

(** What the [try] block appends does not depend on what was collected
    before. *)
Lemma try_block_app (ref document : json) (html_parts : list string) :
  try_block ref document html_parts
  = match try_block ref document [] with
    | Ok added => Ok (html_parts ++ added)%list
    | Raise e => Raise e
    end.
Proof.
  unfold try_block.
  destruct (resolve_reference ref document) as [item|e]; cbn [bind]; [|reflexivity].
  destruct (py_startswith ref "#/texts/") as [[]|e]; cbn [bind]; [| |reflexivity].
  { destruct (process_text_item item); reflexivity. }
  destruct (py_startswith ref "#/tables/") as [[]|e]; cbn [bind]; [| |reflexivity].
  { destruct (process_table_item item); reflexivity. }
  destruct (py_startswith ref "#/pictures/") as [[]|e]; cbn [bind]; [| |reflexivity].
  { destruct (process_picture_item item); reflexivity. }
  now rewrite app_nil_r.
Qed.

Lemma try_block_one (ref document : json) (added : list string) :
  try_block ref document [] = Ok added -> (List.length added <= 1)%nat.
Proof.
  unfold try_block.
  destruct (resolve_reference ref document) as [item|e]; cbn [bind]; [|discriminate].
  destruct (py_startswith ref "#/texts/") as [[]|e]; cbn [bind]; [| |discriminate].
  { destruct (process_text_item item); cbn [bind]; [|discriminate].
    intros [= <-]. simpl. lia. }
  destruct (py_startswith ref "#/tables/") as [[]|e]; cbn [bind]; [| |discriminate].
  { destruct (process_table_item item); cbn [bind]; [|discriminate].
    intros [= <-]. simpl. lia. }
  destruct (py_startswith ref "#/pictures/") as [[]|e]; cbn [bind]; [| |discriminate].
  { destruct (process_picture_item item); cbn [bind]; [|discriminate].
    intros [= <-]. simpl. lia. }
  intros [= <-]. simpl. lia.
Qed.

Lemma body_entry_app (document child : json) (html_parts : list string) :
  body_entry document child html_parts
  = match body_entry document child [] with
    | Ok added => Ok (html_parts ++ added)%list
    | Raise e => Raise e
    end.
Proof.
  unfold body_entry.
  destruct (py_in "$ref" child) as [[]|e]; cbn [bind];
    [| now rewrite app_nil_r | reflexivity].
  destruct (py_getitem child "$ref") as [ref|e]; cbn [bind]; [|reflexivity].
  rewrite (try_block_app ref document html_parts).
  destruct (try_block ref document []) as [added|e]; [reflexivity|].
  destruct (caught e); [now rewrite app_nil_r | reflexivity].
Qed.

Lemma body_entry_one (document child : json) (added : list string) :
  body_entry document child [] = Ok added -> (List.length added <= 1)%nat.
Proof.
  unfold body_entry.
  destruct (py_in "$ref" child) as [[]|e]; cbn [bind]; [| |discriminate].
  - destruct (py_getitem child "$ref") as [ref|e]; cbn [bind]; [|discriminate].
    destruct (try_block ref document []) as [added'|e] eqn:T.
    + intros [= <-]. exact (try_block_one _ _ _ T).
    + destruct (caught e); [|discriminate]. intros [= <-]. simpl. lia.
  - intros [= <-]. simpl. lia.
Qed.

(** The fragments of the entries, one list (empty or of one fragment) per
    entry, are collected in the order of the entries. *)
Lemma body_loop_fragments (document : json) (children : list json)
  (html_parts : list string) (frags : list (list string)) :
  Forall2 (fun child added => body_entry document child [] = Ok added) children frags ->
  body_loop document children html_parts = Ok (html_parts ++ concat frags)%list.
Proof.
  intros F. revert html_parts.
  induction F as [|child added children frags E F IH]; intros parts; simpl.
  - now rewrite app_nil_r.
  - rewrite body_entry_app, E. cbn [bind]. now rewrite IH, app_assoc.
Qed.

Lemma body_loop_returns (document : json) (children : list json)
  (html_parts out : list string) :
  body_loop document children html_parts = Ok out ->
  exists frags,
    Forall2 (fun child added =>
               body_entry document child [] = Ok added /\ (List.length added <= 1)%nat)
            children frags
    /\ out = (html_parts ++ concat frags)%list.
Proof.
  revert html_parts out.
  induction children as [|child children IH]; intros parts out; simpl.
  - intros [= <-]. exists []. split; [constructor | now rewrite app_nil_r].
  - rewrite body_entry_app.
    destruct (body_entry document child []) as [added|e] eqn:E; cbn [bind];
      [|discriminate].
    intros H. destruct (IH _ _ H) as (frags & F & ->).
    exists (added :: frags). split.
    + constructor; [split; [exact E | exact (body_entry_one _ _ _ E)] | exact F].
    + simpl. now rewrite app_assoc.
Qed.

(** An entry that leaves [html_parts] as it is can be taken out of the
    list of entries. *)
Lemma body_loop_skip (document child : json) (pre post : list json)
  (html_parts : list string) :
  (forall parts, body_entry document child parts = Ok parts) ->
  body_loop document (pre ++ child :: post) html_parts
  = body_loop document (pre ++ post) html_parts.
Proof.
  intros Skip. revert html_parts.
  induction pre as [|x pre IH]; intros parts; simpl.
  - now rewrite Skip.
  - destruct (body_entry document x parts); cbn [bind]; [apply IH | reflexivity].
Qed.

(** [json_to_html] on a document whose [body] has the entries [items]. *)
Lemma json_to_html_body (d b : list (string * json)) (items : list json) :
  dict_lookup "body" d = Some (JDict b) ->
  dict_lookup "children" b = Some (JList items) ->
  json_to_html (JDict d)
  = (html_parts <- body_loop (JDict d) items [] ;;
     Ok (Py.join newline (nonempty html_parts))).
Proof.
  intros Hb Hc. unfold json_to_html, py_in, py_getitem.
  rewrite Hb. cbn [bind]. rewrite Hc. reflexivity.
Qed.

Lemma json_to_html_skip (d b : list (string * json)) (child : json)
  (pre post : list json) :
  (forall parts, body_entry (JDict d) child parts = Ok parts) ->
  dict_lookup "body" d = Some (JDict b) ->
  dict_lookup "children" b = Some (JList (pre ++ child :: post)) ->
  json_to_html (JDict d)
  = (html_parts <- body_loop (JDict d) (pre ++ post) [] ;;
     Ok (Py.join newline (nonempty html_parts))).
Proof.
  intros Skip Hb Hc.
  now rewrite (json_to_html_body d b _ Hb Hc), body_loop_skip.
Qed.

(** C4: when [json_to_html] returns, its output is the fragments of the
    body entries, in the order of the entries in [body.children], each
    entry giving one fragment or none, with the empty fragments left out
    and the others joined by a newline; and it returns that whenever
    every entry yields its fragments without raising. *)
Theorem json_to_html_order (d b : list (string * json)) (items : list json) :
  dict_lookup "body" d = Some (JDict b) ->
  dict_lookup "children" b = Some (JList items) ->
  (forall out,
     json_to_html (JDict d) = Ok out ->
     exists frags,
       Forall2 (fun child added =>
                  body_entry (JDict d) child [] = Ok added
                  /\ (List.length added <= 1)%nat)
               items frags
       /\ out = Py.join newline (nonempty (concat frags)))
  /\ (forall frags,
        Forall2 (fun child added => body_entry (JDict d) child [] = Ok added)
                items frags ->
        json_to_html (JDict d) = Ok (Py.join newline (nonempty (concat frags)))).
Proof.
  intros Hb Hc. rewrite (json_to_html_body d b items Hb Hc). split.
  - intros out H. apply bind_ok in H. destruct H as (parts & L & [= <-]).
    destruct (body_loop_returns _ _ _ _ L) as (frags & F & ->).
    now exists frags.
  - intros frags F. now rewrite (body_loop_fragments _ _ [] frags F).
Qed.

Lemma json_to_html_order_witness :
  json_to_html Sample.document
  = Ok ("<h1>Hello &lt;b&gt; &amp; &#x27;x&#x27;</h1>" ++ newline
          ++ image_element "data:image/jpeg;base64,QQ==" ++ newline
          ++ "<p><strong>bold one</strong></p>").
Proof.
  refine (proj2 (json_to_html_order Sample.fields Sample.body Sample.children
                   eq_refl eq_refl)
            [["<h1>Hello &lt;b&gt; &amp; &#x27;x&#x27;</h1>"]; []; [""];
             [image_element "data:image/jpeg;base64,QQ=="];
             ["<p><strong>bold one</strong></p>"]] _).
  repeat constructor.
Defined.

(** ** Failures of the resolution *)

(** How one step of the walk fails. *)
Lemma walk_step_failures (part : string) (rest : list string) :
  (forall xs i,
     Py.isdigit part = true -> Py.int_of_str part = Ok i ->
     (List.length xs <= Z.to_nat i)%nat ->
     walk (part :: rest) (JList xs) = Raise IndexError)
  /\ (forall kvs,
        Py.isdigit part = false -> dict_lookup part kvs = None ->
        walk (part :: rest) (JDict kvs) = Raise KeyError)
  /\ (forall kvs,
        Py.isdigit part = true -> Py.int_of_str part <> Raise ValueError ->
        walk (part :: rest) (JDict kvs) = Raise KeyError)
  /\ (forall xs,
        Py.isdigit part = false ->
        walk (part :: rest) (JList xs) = Raise TypeError).
Proof.
  repeat split.
  - intros xs i D I L. cbn [walk]. rewrite D, I. cbn [bind py_getitem_int].
    apply nth_error_None in L. now rewrite L.
  - intros kvs D L. cbn [walk]. rewrite D. cbn [py_getitem]. now rewrite L.
  - intros kvs D I. cbn [walk]. rewrite D.
    destruct (Py.int_of_str part) as [i|e] eqn:E; [reflexivity|].
    unfold Py.int_of_str in E.
    destruct (Py.all_chars Py.is_decimal part && negb (Py.is_empty part)
              && (String.length part <=? Py.max_str_digits)%nat);
      [discriminate E | congruence].
  - intros xs D. cbn [walk]. now rewrite D.
Qed.

(** C1, as the code has it: when the resolution of a body pointer raises
    [KeyError] or [IndexError] (an absent key of a mapping, a numeric
    segment applied to a mapping, an index past the end of a sequence),
    the dispatch loop appends nothing for the entry and goes on, so
    [json_to_html] renders the document as if the entry were not there;
    when it raises anything else (a [TypeError], as for a non-numeric
    segment applied to a sequence), the loop raises it. *)
Theorem body_entry_catches_lookup_failures (document : json)
  (c : list (string * json)) (ref : json) (e : exn) :
  dict_lookup "$ref" c = Some ref ->
  resolve_reference ref document = Raise e ->
  (e = KeyError \/ e = IndexError ->
   (forall parts, body_entry document (JDict c) parts = Ok parts)
   /\ (forall pre post parts,
         body_loop document (pre ++ JDict c :: post) parts
         = body_loop document (pre ++ post) parts)
   /\ (forall d b pre post,
         document = JDict d ->
         dict_lookup "body" d = Some (JDict b) ->
         dict_lookup "children" b = Some (JList (pre ++ JDict c :: post)) ->
         json_to_html document
         = (html_parts <- body_loop document (pre ++ post) [] ;;
            Ok (Py.join newline (nonempty html_parts)))))
  /\ (e <> KeyError -> e <> IndexError ->
      forall parts rest,
        body_entry document (JDict c) parts = Raise e
        /\ body_loop document (JDict c :: rest) parts = Raise e)
  /\ (forall part rest xs i,
        Py.isdigit part = true -> Py.int_of_str part = Ok i ->
        (List.length xs <= Z.to_nat i)%nat ->
        walk (part :: rest) (JList xs) = Raise IndexError)
  /\ (forall part rest kvs,
        Py.isdigit part = false -> dict_lookup part kvs = None ->
        walk (part :: rest) (JDict kvs) = Raise KeyError)
  /\ (forall part rest xs,
        Py.isdigit part = false ->
        walk (part :: rest) (JList xs) = Raise TypeError).
Proof.
  intros Href Hres.
  assert (B : forall parts,
             body_entry document (JDict c) parts
             = if caught e then Ok parts else Raise e).
  { intros parts. unfold body_entry, py_in, py_getitem. rewrite Href. cbn [bind].
    unfold try_block. rewrite Hres. reflexivity. }
  split; [|split; [|split; [|split]]].
  - intros K.
    assert (Skip : forall parts, body_entry document (JDict c) parts = Ok parts).
    { intros parts. rewrite B. now destruct K as [-> | ->]. }
    split; [exact Skip|]. split.
    + intros pre post parts. now apply body_loop_skip.
    + intros d b pre post -> Hb Hc. exact (json_to_html_skip d b _ pre post Skip Hb Hc).
  - intros NK NI parts rest.
    assert (R : body_entry document (JDict c) parts = Raise e).
    { rewrite B. now destruct e. }
    split; [exact R|]. cbn [body_loop]. now rewrite R.
  - intros part rest. apply (walk_step_failures part rest).
  - intros part rest. apply (walk_step_failures part rest).
  - intros part rest. apply (walk_step_failures part rest).
Qed.

Lemma body_entry_catches_lookup_failures_witness :
  resolve_reference (JStr "#/texts/99") Sample.document = Raise IndexError
  /\ (forall parts, body_entry Sample.document (pointer "#/texts/99") parts = Ok parts)
  /\ json_to_html Sample.document
     = (html_parts <-
          body_loop Sample.document
            ([pointer "#/texts/0"]
               ++ [pointer "#/texts/2"; pointer "#/pictures/0"; pointer "#/texts/1"]) [] ;;
        Ok (Py.join newline (nonempty html_parts))).
Proof.
  pose proof (body_entry_catches_lookup_failures Sample.document
                [("$ref", JStr "#/texts/99")] (JStr "#/texts/99") IndexError
                eq_refl eq_refl) as W.
  destruct W as [W _]. destruct (W (or_intror eq_refl)) as (W1 & _ & W3).
  split; [reflexivity|]. split; [exact W1|].
  exact (W3 Sample.fields Sample.body [pointer "#/texts/0"]
           [pointer "#/texts/2"; pointer "#/pictures/0"; pointer "#/texts/1"]
           eq_refl eq_refl eq_refl).
Defined.

(** C1 fails as stated for a pointer of the wrong shape: [#/texts/title]
    applies the segment [title] to the list of texts, its resolution
    raises [TypeError], which the loop does not catch, and [json_to_html]
    raises it, although the pointers before and after it resolve. *)
Lemma wrong_shape_pointer_raises :
  resolve_reference (JStr "#/texts/title") Sample.misshapen = Raise TypeError
  /\ json_to_html Sample.misshapen = Raise TypeError.
Proof.
  split; reflexivity.
Qed.

(** C10: a body entry that is an object without a [$ref] field appends
    nothing and raises nothing, and the loop goes on with the entries
    after it: [json_to_html] renders the document as if the entry were not
    there. *)
Theorem entry_without_ref_is_skipped (document child : json) :
  lacks_ref child = true ->
  (forall parts, body_entry document child parts = Ok parts)
  /\ (forall pre post parts,
        body_loop document (pre ++ child :: post) parts
        = body_loop document (pre ++ post) parts)
  /\ (forall d b pre post,
        document = JDict d ->
        dict_lookup "body" d = Some (JDict b) ->
        dict_lookup "children" b = Some (JList (pre ++ child :: post)) ->
        json_to_html document
        = (html_parts <- body_loop document (pre ++ post) [] ;;
           Ok (Py.join newline (nonempty html_parts)))).
Proof.
  intros H.
  assert (Skip : forall parts, body_entry document child parts = Ok parts).
  { intros parts. destruct child as [| | | | |c]; try discriminate H.
    unfold lacks_ref in H. unfold body_entry, py_in.
    now destruct (dict_lookup "$ref" c). }
  split; [exact Skip|]. split.
  - intros pre post parts. now apply body_loop_skip.
  - intros d b pre post -> Hb Hc. exact (json_to_html_skip d b _ pre post Skip Hb Hc).
Qed.

Lemma entry_without_ref_is_skipped_witness :
  json_to_html (JDict Sample.mixed_fields)
  = Ok ("<h1>Hello &lt;b&gt; &amp; &#x27;x&#x27;</h1>" ++ newline
          ++ "<p><strong>bold one</strong></p>").
Proof.
  pose proof (entry_without_ref_is_skipped (JDict Sample.mixed_fields) Sample.unmarked
                eq_refl) as (_ & _ & W).
  rewrite (W Sample.mixed_fields
             [("children",
               JList [pointer "#/texts/0"; Sample.unmarked; pointer "#/texts/1"])]
             [pointer "#/texts/0"] [pointer "#/texts/1"] eq_refl eq_refl eq_refl).
  reflexivity.
Defined.

(** C8: a document without a [body] field, or whose [body] has no
    [children] field, renders as the empty string, and a table node
    without [data], without a [grid] in it, or with an empty grid renders
    as the empty string; neither raises. *)
Theorem absent_structure_renders_empty (document table : json) :
  (lacks_children document = true -> json_to_html document = Ok "")
  /\ (lacks_grid table = true -> process_table_item table = Ok "").
Proof.
  split; intros H.
  - destruct document as [| | | | |d]; try discriminate H.
    unfold lacks_children in H. unfold json_to_html, py_in, py_getitem.
    destruct (dict_lookup "body" d) as [[| | | | |b]|]; try discriminate H;
      [|reflexivity].
    cbn [bind]. now destruct (dict_lookup "children" b).
  - destruct table as [| | | | |t]; try discriminate H.
    unfold lacks_grid in H. unfold process_table_item, py_in, py_getitem.
    destruct (dict_lookup "data" t) as [[| | | | |data]|]; try discriminate H;
      [|reflexivity].
    cbn [bind negb].
    destruct (dict_lookup "grid" data) as [[| | | |[|row rows]|]|];
      try discriminate H; reflexivity.
Qed.

Lemma absent_structure_renders_empty_witness :
  json_to_html (JDict Sample.collections) = Ok ""
  /\ json_to_html (JDict [("body", JDict [("name", JStr "_root_")])]) = Ok ""
  /\ process_table_item (JDict [("label", JStr "table")]) = Ok ""
  /\ process_table_item (JDict [("data", JDict [("num_rows", JInt 0)])]) = Ok ""
  /\ process_table_item (JDict [("data", JDict [("grid", JList [])])]) = Ok "".
Proof.
  split; [|split; [|split; [|split]]].
  - exact (proj1 (absent_structure_renders_empty (JDict Sample.collections) JNull)
             eq_refl).
  - exact (proj1 (absent_structure_renders_empty
                    (JDict [("body", JDict [("name", JStr "_root_")])]) JNull) eq_refl).
  - exact (proj2 (absent_structure_renders_empty JNull
                    (JDict [("label", JStr "table")])) eq_refl).
  - exact (proj2 (absent_structure_renders_empty JNull
                    (JDict [("data", JDict [("num_rows", JInt 0)])])) eq_refl).
  - exact (proj2 (absent_structure_renders_empty JNull
                    (JDict [("data", JDict [("grid", JList [])])])) eq_refl).
Defined.

(** ** Further properties of the renderers *)

(** The separator round trip of [split]. *)
Lemma join_split (s : string) (sep : ascii) :
  Py.join (String sep "") (Py.split s sep) = s.
Proof.
  unfold Py.join. induction s as [|c s IH]; [reflexivity|].
  cbn [Py.split].
  destruct (Py.split s sep) as [|seg segs] eqn:S; [now destruct s|].
  destruct (Ascii.eqb c sep) eqn:E.
  - apply Ascii.eqb_eq in E. subst c.
    change (String.concat (String sep "") ("" :: seg :: segs))
      with (String sep (String.concat (String sep "") (seg :: segs))).
    now rewrite IH.
  - destruct segs as [|seg' segs]; cbn [String.concat append] in *; now rewrite IH.
Qed.

(** X1: a text node whose text is blank, or left out, gives no fragment. *)
Theorem blank_text_is_elided (t : list (string * json)) (s : string) :
  py_get (JDict t) "text" (JStr "") = Ok (JStr s) ->
  Py.strip s = "" ->
  process_text_item (JDict t) = Ok "".
Proof.
  intros Htext Hs. unfold process_text_item. rewrite Htext.
  cbn [bind py_strip]. now rewrite Hs.
Qed.

Lemma blank_text_is_elided_witness :
  process_text_item (Sample.text_node "   " Sample.bold "title") = Ok ""
  /\ process_text_item (JDict [("label", JStr "title")]) = Ok "".
Proof.
  split.
  - exact (blank_text_is_elided
             [("text", JStr "   "); ("formatting", Sample.bold); ("label", JStr "title")]
             "   " eq_refl eq_refl).
  - exact (blank_text_is_elided [("label", JStr "title")] "" eq_refl eq_refl).
Defined.

(** X2: a text node that is not bold renders as the element of its label
    ([<h1>] for [title], [<h3>] for [heading], [<p>] otherwise) around the
    escaped text in the emphasis its flags select. *)
Theorem plain_text_by_label (t f : list (string * json)) (s : string) (label : json) :
  dict_lookup "text" t = Some (JStr s) ->
  py_get (JDict t) "formatting" (JDict []) = Ok (JDict f) ->
  py_get (JDict t) "label" (JStr "paragraph") = Ok label ->
  truthy (field "bold" f) = false ->
  Py.strip s <> "" ->
  process_text_item (JDict t)
  = Ok (labelled label (emphasis f (escape_html (JStr (Py.strip s))))).
Proof.
  intros Htext Hfmt Hlabel Hbold Hne.
  unfold process_text_item. rewrite Hfmt, Hlabel. unfold py_get at 1.
  rewrite Htext. cbn [bind py_strip truthy].
  destruct (Py.strip s) as [|c rest] eqn:S; [congruence|].
  cbn [Py.is_empty negb]. rewrite !py_get_field. cbn [bind]. rewrite Hbold.
  unfold emphasis, labelled.
  destruct (truthy (field "italic" f)); cbn [bind];
    [|destruct (truthy (field "underline" f)); cbn [bind];
      [|destruct (truthy (field "strikethrough" f)); cbn [bind]]];
    change (String.eqb "p" "h2") with false; cbv iota;
    destruct (is_str label "title"); try reflexivity;
    destruct (is_str label "heading"); reflexivity.
Qed.

Lemma plain_text_by_label_witness :
  process_text_item (Sample.text_node "  Hello <b> & 'x'  " (JDict []) "title")
  = Ok "<h1>Hello &lt;b&gt; &amp; &#x27;x&#x27;</h1>".
Proof.
  refine (plain_text_by_label
            [("text", JStr "  Hello <b> & 'x'  "); ("formatting", JDict []);
             ("label", JStr "title")]
            [] "  Hello <b> & 'x'  " (JStr "title") eq_refl eq_refl eq_refl eq_refl _).
  vm_compute. discriminate.
Defined.

(** X3: a pointer that resolves but does not start with [#/texts/],
    [#/tables/] or [#/pictures/] gives no fragment. *)
Theorem other_collection_is_skipped (document item : json)
  (c : list (string * json)) (ref : string) :
  dict_lookup "$ref" c = Some (JStr ref) ->
  resolve_reference (JStr ref) document = Ok item ->
  Py.startswith ref "#/texts/" = false ->
  Py.startswith ref "#/tables/" = false ->
  Py.startswith ref "#/pictures/" = false ->
  forall parts, body_entry document (JDict c) parts = Ok parts.
Proof.
  intros Href Hres Ht Hb Hp parts.
  unfold body_entry, py_in, py_getitem. rewrite Href. cbn [bind].
  unfold try_block, py_startswith. rewrite Hres. cbn [bind].
  now rewrite Ht, Hb, Hp.
Qed.

Lemma other_collection_is_skipped_witness :
  (forall parts,
     body_entry Sample.document (pointer "#/body/children") parts = Ok parts)
  /\ (forall parts, body_entry Sample.document (pointer "texts/0") parts = Ok parts).
Proof.
  split.
  - exact (other_collection_is_skipped Sample.document (JList Sample.children)
             [("$ref", JStr "#/body/children")] "#/body/children"
             eq_refl eq_refl eq_refl eq_refl eq_refl).
  - exact (other_collection_is_skipped Sample.document
             (Sample.text_node "  Hello <b> & 'x'  " (JDict []) "title")
             [("$ref", JStr "texts/0")] "texts/0"
             eq_refl eq_refl eq_refl eq_refl eq_refl).
Defined.

Lemma table_cells_append (cells : list json) (lines html_parts : list string) :
  Forall2 (fun cell line => table_cell cell = Ok line) cells lines ->
  table_cells cells html_parts = Ok (html_parts ++ lines)%list.
Proof.
  intros F. revert html_parts.
  induction F as [|cell line cells lines E F IH]; intros parts; simpl.
  - now rewrite app_nil_r.
  - rewrite E. cbn [bind]. now rewrite IH, <- app_assoc.
Qed.

Lemma table_rows_append (rows : list json) (liness : list (list string))
  (html_parts : list string) :
  Forall2 (fun row lines =>
             exists cells, row = JList cells
               /\ Forall2 (fun cell line => table_cell cell = Ok line) cells lines)
          rows liness ->
  table_rows rows html_parts = Ok (html_parts ++ concat (map row_lines liness))%list.
Proof.
  intros F. revert html_parts.
  induction F as [|row lines rows liness (cells & -> & Fc) F IH]; intros parts; simpl.
  - now rewrite app_nil_r.
  - rewrite (table_cells_append _ _ _ Fc). cbn [bind]. rewrite IH.
    unfold row_lines. simpl. now rewrite <- !app_assoc.
Qed.

(** X4: a table whose grid is a list of rows, each a list of cells that
    render, renders as [<table>], then for each row in grid order [<tr>],
    the lines of its cells in row order and [</tr>], then [</table>], one
    per line. *)
Theorem table_in_grid_order (t data : list (string * json)) (row : json)
  (rows : list json) (liness : list (list string)) :
  dict_lookup "data" t = Some (JDict data) ->
  dict_lookup "grid" data = Some (JList (row :: rows)) ->
  Forall2 (fun row lines =>
             exists cells, row = JList cells
               /\ Forall2 (fun cell line => table_cell cell = Ok line) cells lines)
          (row :: rows) liness ->
  process_table_item (JDict t) = Ok (Py.join newline (table_lines liness)).
Proof.
  intros Hdata Hgrid F. unfold process_table_item, py_in, py_getitem.
  rewrite Hdata. cbn [bind negb]. rewrite Hgrid. cbn [bind negb truthy py_iter].
  now rewrite (table_rows_append _ _ _ F).
Qed.

Lemma table_in_grid_order_witness :
  process_table_item Sample.table
  = Ok (Py.join newline
          ["<table>"; "  <tr>";
           "    <td rowspan=" ++ Py.dq ++ "2" ++ Py.dq ++ ">a</td>";
           "    <th colspan=" ++ Py.dq ++ "3" ++ Py.dq ++ ">b</th>";
           "  </tr>"; "</table>"]).
Proof.
  refine (table_in_grid_order
            [("data", JDict [("grid", JList [JList Sample.cells])])]
            [("grid", JList [JList Sample.cells])]
            (JList Sample.cells) []
            [["    <td rowspan=" ++ Py.dq ++ "2" ++ Py.dq ++ ">a</td>";
              "    <th colspan=" ++ Py.dq ++ "3" ++ Py.dq ++ ">b</th>"]]
            eq_refl eq_refl _).
  constructor; [|constructor].
  exists Sample.cells. split; [reflexivity|]. repeat constructor.
Defined.

(** ** What the escaping keeps *)

Lemma append_nil_r (a : string) : a ++ "" = a.
Proof.
  induction a as [|x a IH]; simpl; [reflexivity|]. now rewrite IH.
Qed.

Lemma length_append (a b : string) :
  String.length (a ++ b) = (String.length a + String.length b)%nat.
Proof.
  induction a as [|x a IH]; simpl; [reflexivity|]. now rewrite IH.
Qed.

Lemma unescape_escape_char (c : ascii) (t : string) :
  unescape_from 0 (escape_char c ++ t) = String c (unescape_from 0 t).
Proof.
  unfold escape_char.
  destruct (Ascii.eqb c "&") eqn:E1;
    [apply Ascii.eqb_eq in E1; subst c; simpl; now rewrite ?prefix_empty|].
  destruct (Ascii.eqb c "<") eqn:E2;
    [apply Ascii.eqb_eq in E2; subst c; simpl; now rewrite ?prefix_empty|].
  destruct (Ascii.eqb c ">") eqn:E3;
    [apply Ascii.eqb_eq in E3; subst c; simpl; now rewrite ?prefix_empty|].
  destruct (Ascii.eqb c (ascii_of_nat 34)) eqn:E4;
    [apply Ascii.eqb_eq in E4; subst c; simpl; now rewrite ?prefix_empty|].
  destruct (Ascii.eqb c "'") eqn:E5;
    [apply Ascii.eqb_eq in E5; subst c; simpl; now rewrite ?prefix_empty|].
  cbn [append unescape_from prefix].
  destruct (ascii_dec "&" c) as [<-|N]; [discriminate E1 | reflexivity].
Qed.

Lemma unescape_escape (s : string) :
  unescape (escape_html (JStr s)) = s.
Proof.
  rewrite escape_html_by_char. cbn [py_str]. unfold unescape.
  induction s as [|c s IH]; [reflexivity|].
  cbn [Py.concat_map]. now rewrite unescape_escape_char, IH.
Qed.

(** X5: [escape_html] loses nothing: two different strings never escape
    to the same markup. *)
Theorem escape_html_injective (a b : string) :
  a <> b -> escape_html (JStr a) <> escape_html (JStr b).
Proof.
  intros N E. apply N.
  rewrite <- (unescape_escape a), <- (unescape_escape b). now rewrite E.
Qed.

Lemma escape_html_injective_witness :
  escape_html (JStr "<") <> escape_html (JStr "&lt;").
Proof.
  apply (escape_html_injective "<" "&lt;"). discriminate.
Defined.

(** X6: escaping a concatenation is concatenating the escapes. *)
Theorem escape_html_concat (a b : string) :
  escape_html (JStr (a ++ b)) = escape_html (JStr a) ++ escape_html (JStr b).
Proof.
  rewrite !escape_html_by_char. cbn [py_str]. apply concat_map_app.
Qed.

Ltac by_escaped_char c :=
  unfold escape_char, special, raw_markup;
  destruct (Ascii.eqb c "&"); [|destruct (Ascii.eqb c "<");
    [|destruct (Ascii.eqb c ">"); [|destruct (Ascii.eqb c (ascii_of_nat 34));
      [|destruct (Ascii.eqb c "'")]]]].

Lemma escape_char_length (c : ascii) :
  (1 <= String.length (escape_char c) <= 6)%nat
  /\ (special c = true -> (1 < String.length (escape_char c))%nat)
  /\ (special c = false -> escape_char c = String c "").
Proof.
  by_escaped_char c; cbn; repeat split; intros; try lia; try discriminate; reflexivity.
Qed.

Lemma escape_char_clean (c : ascii) : clean (escape_char c) = negb (special c).
Proof.
  destruct (special c) eqn:S.
  - revert S. by_escaped_char c; intros S; try reflexivity. discriminate S.
  - destruct (escape_char_length c) as (_ & _ & E). rewrite (E S).
    unfold clean. cbn [Py.all_chars]. now rewrite S.
Qed.

Lemma escaped_clean (s : string) :
  clean (Py.concat_map escape_char s) = clean s.
Proof.
  unfold clean. induction s as [|c s IH]; [reflexivity|].
  cbn [Py.concat_map Py.all_chars]. rewrite all_chars_app, IH.
  f_equal. apply escape_char_clean.
Qed.

Lemma escaped_length (s : string) :
  (String.length s <= String.length (Py.concat_map escape_char s)
   <= 6 * String.length s)%nat
  /\ (clean s = false ->
      (String.length s < String.length (Py.concat_map escape_char s))%nat).
Proof.
  unfold clean. induction s as [|c s [IH1 IH2]]; [split; [simpl; lia | discriminate]|].
  cbn [Py.concat_map Py.all_chars String.length]. rewrite length_append.
  destruct (escape_char_length c) as (L & Ls & _). split; [lia|].
  destruct (special c); cbn [negb andb].
  - intros _. specialize (Ls eq_refl). lia.
  - intros H. specialize (IH2 H). lia.
Qed.

Lemma clean_unchanged (s : string) :
  clean s = true -> Py.concat_map escape_char s = s.
Proof.
  unfold clean. induction s as [|c s IH]; [reflexivity|].
  cbn [Py.concat_map Py.all_chars]. intros H. apply andb_true_iff in H.
  destruct H as [Hc Hs]. apply negb_true_iff in Hc.
  destruct (escape_char_length c) as (_ & _ & E). now rewrite (E Hc), (IH Hs).
Qed.

Lemma unchanged_iff_clean (s : string) :
  Py.concat_map escape_char s = s <-> clean s = true.
Proof.
  split; [|apply clean_unchanged].
  intros E. destruct (clean s) eqn:C; [reflexivity|].
  destruct (escaped_length s) as [_ L]. specialize (L C). rewrite E in L. lia.
Qed.

(** X7: [escape_html] returns its argument unchanged exactly when the
    string holds none of [&], [<], [>], the double quote and the single
    quote; escaping twice is escaping once exactly for those strings; and
    the escape is never shorter than the string nor longer than six times
    its length. *)
Theorem escape_html_fixed_points (s : string) :
  (escape_html (JStr s) = s <-> clean s = true)
  /\ (escape_html (JStr (escape_html (JStr s))) = escape_html (JStr s)
      <-> clean s = true)
  /\ (String.length s <= String.length (escape_html (JStr s))
      <= 6 * String.length s)%nat.
Proof.
  rewrite (escape_html_by_char (JStr (escape_html (JStr s)))).
  rewrite (escape_html_by_char (JStr s)). cbn [py_str].
  split; [apply unchanged_iff_clean|]. split.
  - rewrite unchanged_iff_clean. now rewrite escaped_clean.
  - apply escaped_length.
Qed.

(** ** What the renderers raise *)

Lemma within_bind {A B : Type} (allowed : exn -> bool) (r : result A)
  (k : A -> result B) :
  raises_within allowed r ->
  (forall a, r = Ok a -> raises_within allowed (k a)) ->
  raises_within allowed (bind r k).
Proof.
  destruct r as [a|e]; cbn; [intros _ H; now apply H | tauto].
Qed.

Lemma within_if {A : Type} (allowed : exn -> bool) (b : bool) (x y : result A) :
  raises_within allowed x -> raises_within allowed y ->
  raises_within allowed (if b then x else y).
Proof. now destruct b. Qed.

Lemma py_get_within (v : json) (k : string) (d : json) :
  raises_within uncaught (py_get v k d).
Proof. destruct v; cbn; trivial. now destruct (dict_lookup k kvs). Qed.

Lemma py_strip_within (v : json) : raises_within uncaught (py_strip v).
Proof. now destruct v. Qed.

Lemma py_iter_within (v : json) : raises_within uncaught (py_iter v).
Proof. now destruct v. Qed.

Lemma py_gt_one_within (v : json) : raises_within uncaught (py_gt_one v).
Proof. now destruct v. Qed.

Lemma py_in_within (k : string) (v : json) : raises_within uncaught (py_in k v).
Proof. now destruct v. Qed.

Lemma py_format_within (v : json) : raises_within uncaught (py_format v).
Proof. unfold py_format. now destruct (prints v). Qed.

(** After [k in v] held, [v[k]] raises no [KeyError]. *)
Lemma py_getitem_within (v : json) (k : string) :
  py_in k v = Ok true -> raises_within uncaught (py_getitem v k).
Proof.
  destruct v; cbn; intros H; try reflexivity; try discriminate H.
  now destruct (dict_lookup k kvs).
Qed.

Create HintDb within.

#[local] Hint Resolve py_get_within py_strip_within py_iter_within py_gt_one_within
  py_in_within py_format_within : within.

Ltac within :=
  repeat first
    [ exact I
    | solve [auto with within]
    | apply within_if
    | apply within_bind; [| intros ? ?] ].

Lemma process_text_item_within (v : json) :
  raises_within uncaught (process_text_item v).
Proof.
  unfold process_text_item. within.
  match goal with |- context [truthy ?b] => destruct (truthy b) end;
    [match goal with
     | |- context [(50 <? ?n)%nat] => destruct (50 <? n)%nat
     end|]; within.
Qed.

Lemma table_cell_within (cell : json) : raises_within uncaught (table_cell cell).
Proof. unfold table_cell. within. Qed.

Lemma table_cells_within (cells : list json) (html_parts : list string) :
  raises_within uncaught (table_cells cells html_parts).
Proof.
  revert html_parts. induction cells as [|cell cells IH]; intros parts; cbn; [exact I|].
  apply within_bind; [apply table_cell_within | intros; apply IH].
Qed.

Lemma table_rows_within (rows : list json) (html_parts : list string) :
  raises_within uncaught (table_rows rows html_parts).
Proof.
  revert html_parts. induction rows as [|row rows IH]; intros parts; cbn; [exact I|].
  apply within_bind; [apply py_iter_within | intros cells _].
  apply within_bind; [apply table_cells_within | intros; apply IH].
Qed.

Lemma process_table_item_within (v : json) :
  raises_within uncaught (process_table_item v).
Proof.
  unfold process_table_item.
  apply within_bind; [apply py_in_within | intros has_data Hd].
  destruct has_data; cbn [negb bind]; [|exact I].
  apply within_bind.
  { apply within_bind; [now apply py_getitem_within | intros data _]. within. }
  intros no_grid Hg. destruct no_grid; [exact I|].
  apply within_bind; [now apply py_getitem_within | intros data Hdata].
  rewrite Hdata in Hg. cbn [bind] in Hg.
  destruct (py_in "grid" data) as [[]|] eqn:Hin; try discriminate Hg.
  apply within_bind; [now apply py_getitem_within | intros grid _].
  apply within_if; [exact I|].
  apply within_bind; [apply py_iter_within | intros rows _].
  apply within_bind; [apply table_rows_within | intros; exact I].
Qed.

Lemma process_picture_item_within (v : json) :
  raises_within uncaught (process_picture_item v).
Proof.
  unfold process_picture_item.
  apply within_bind; [apply py_in_within | intros has_data Hd].
  destruct has_data; cbn [negb]; [|exact I].
  apply within_bind; [now apply py_getitem_within | intros]. within.
Qed.

(** X8: the handler of the dispatch loop catches resolution failures
    only: none of the three renderers raises [KeyError] or [IndexError],
    so once a pointer has resolved, whatever the dispatch raises leaves
    the loop, and the entry behaves as its [try] block does. *)
Theorem handler_catches_resolution_only (document item ref : json)
  (c : list (string * json)) :
  dict_lookup "$ref" c = Some ref ->
  resolve_reference ref document = Ok item ->
  raises_within uncaught (process_text_item item)
  /\ raises_within uncaught (process_table_item item)
  /\ raises_within uncaught (process_picture_item item)
  /\ (forall parts,
        body_entry document (JDict c) parts = try_block ref document parts)
  /\ (forall parts rest e,
        try_block ref document parts = Raise e ->
        body_loop document (JDict c :: rest) parts = Raise e).
Proof.
  intros Href Hres.
  split; [apply process_text_item_within|].
  split; [apply process_table_item_within|].
  split; [apply process_picture_item_within|].
  assert (W : forall parts, raises_within uncaught (try_block ref document parts)).
  { intros parts. unfold try_block. rewrite Hres. cbn [bind].
    destruct (py_startswith ref "#/texts/") as [[]|e] eqn:S; cbn [bind].
    - apply within_bind; [apply process_text_item_within | intros; exact I].
    - destruct ref; try discriminate S. cbn [py_startswith bind].
      apply within_if; [apply within_bind;
                        [apply process_table_item_within | intros; exact I]|].
      apply within_if; [apply within_bind;
                        [apply process_picture_item_within | intros; exact I]|].
      exact I.
    - now destruct ref. }
  assert (B : forall parts,
             body_entry document (JDict c) parts = try_block ref document parts).
  { intros parts. unfold body_entry, py_in, py_getitem. rewrite Href. cbn [bind].
    specialize (W parts). destruct (try_block ref document parts) as [|e];
      [reflexivity|].
    cbn in W. unfold uncaught in W. apply negb_true_iff in W. now rewrite W. }
  split; [exact B|].
  intros parts rest e T. cbn [body_loop]. now rewrite B, T.
Qed.

Lemma handler_catches_resolution_only_witness :
  resolve_reference (JStr "#/texts/0") Edge.null_text = Ok (JDict [("text", JNull)])
  /\ body_loop Edge.null_text [pointer "#/texts/0"; pointer "#/texts/1"] []
     = Raise AttributeError.
Proof.
  split; [reflexivity|].
  pose proof (handler_catches_resolution_only Edge.null_text (JDict [("text", JNull)])
                (JStr "#/texts/0") [("$ref", JStr "#/texts/0")] eq_refl eq_refl)
    as (_ & _ & _ & _ & W).
  exact (W [] [pointer "#/texts/1"] AttributeError eq_refl).
Defined.

(** ** The text renderer on every node *)

(** The path that is not bold. *)
Lemma process_text_item_plain (t f : list (string * json)) (s : string) (label : json) :
  dict_lookup "text" t = Some (JStr s) ->
  py_get (JDict t) "formatting" (JDict []) = Ok (JDict f) ->
  py_get (JDict t) "label" (JStr "paragraph") = Ok label ->
  truthy (field "bold" f) = false ->
  Py.is_empty (Py.strip s) = false ->
  process_text_item (JDict t)
  = Ok (labelled label (emphasis f (escape_html (JStr (Py.strip s))))).
Proof.
  intros Htext Hfmt Hlabel Hbold Hne.
  unfold process_text_item. rewrite Hfmt, Hlabel. unfold py_get at 1.
  rewrite Htext. cbn [bind py_strip truthy]. rewrite Hne.
  cbn [negb]. rewrite !py_get_field. cbn [bind]. rewrite Hbold.
  unfold emphasis, labelled.
  destruct (truthy (field "italic" f)); cbn [bind];
    [|destruct (truthy (field "underline" f)); cbn [bind];
      [|destruct (truthy (field "strikethrough" f)); cbn [bind]]];
    change (String.eqb "p" "h2") with false; cbv iota;
    destruct (is_str label "title"); try reflexivity;
    destruct (is_str label "heading"); reflexivity.
Qed.

Lemma label_value (t : list (string * json)) :
  py_get (JDict t) "label" (JStr "paragraph")
  = Ok (match dict_lookup "label" t with Some l => l | None => JStr "paragraph" end).
Proof. unfold py_get. now destruct (dict_lookup "label" t). Qed.

(** The renderer on a node with text that is not blank and whose
    formatting is an object or left out. *)
Lemma process_text_item_html (t f : list (string * json)) (s : string) :
  dict_lookup "text" t = Some (JStr s) ->
  py_get (JDict t) "formatting" (JDict []) = Ok (JDict f) ->
  Py.is_empty (Py.strip s) = false ->
  process_text_item (JDict t)
  = Ok (text_html f
          (match dict_lookup "label" t with Some l => l | None => JStr "paragraph" end)
          (Py.strip s)).
Proof.
  intros Htext Hfmt Hne. unfold text_html.
  destruct (truthy (field "bold" f)) eqn:Hbold.
  - assert (Hf : dict_lookup "formatting" t = Some (JDict f)).
    { unfold py_get in Hfmt. destruct (dict_lookup "formatting" t) as [v|].
      - now injection Hfmt as ->.
      - injection Hfmt as <-. discriminate Hbold. }
    rewrite (process_text_item_bold t f s Htext Hf Hbold Hne).
    now destruct (50 <? String.length (Py.strip s))%nat.
  - exact (process_text_item_plain t f s _ Htext Hfmt (label_value t) Hbold Hne).
Qed.

(** X9: [process_text_item] returns a fragment on an object whose [text]
    is a string or left out and whose [formatting] is an object or left
    out: the empty string when the text is blank, and the markup of
    [text_html] on the trimmed text otherwise.  A blank text is rendered
    (as the empty string) whatever the [formatting].  On anything else, a
    node that is no object, a [text] that is no string, a [formatting]
    that is no object under text that is not blank, it raises
    [AttributeError]. *)
Theorem process_text_item_total (v : json) :
  (text_item_shape v = true ->
   exists t s,
     v = JDict t
     /\ py_get v "text" (JStr "") = Ok (JStr s)
     /\ process_text_item v
        = Ok (if Py.is_empty (Py.strip s) then ""
              else text_html
                     (match dict_lookup "formatting" t with
                      | Some (JDict f) => f
                      | _ => []
                      end)
                     (match dict_lookup "label" t with
                      | Some l => l
                      | None => JStr "paragraph"
                      end)
                     (Py.strip s)))
  /\ (text_item_shape v = false -> process_text_item v = Raise AttributeError).
Proof.
  split.
  - destruct v as [| | | | |t]; try discriminate. unfold text_item_shape.
    destruct (dict_lookup "text" t) as [[| | |s| |]|] eqn:Htext; try discriminate.
    + intros H. exists t, s. split; [reflexivity|].
      split; [unfold py_get; now rewrite Htext|].
      destruct (Py.is_empty (Py.strip s)) eqn:Hne.
      * unfold process_text_item, py_get. rewrite Htext.
        cbn [bind py_strip truthy]. now rewrite Hne.
      * cbn [orb] in H.
        apply process_text_item_html; [exact Htext | | exact Hne].
        unfold py_get.
        destruct (dict_lookup "formatting" t) as [[| | | | |f]|];
          try discriminate H; reflexivity.
    + intros _. exists t, "". split; [reflexivity|].
      split; [unfold py_get; now rewrite Htext|].
      unfold process_text_item, py_get. now rewrite Htext.
  - destruct v as [| | | | |t]; try reflexivity. unfold text_item_shape.
    unfold process_text_item, py_get at 1.
    destruct (dict_lookup "text" t) as [[| | |s| |]|]; try reflexivity;
      try discriminate.
    cbn [bind py_strip truthy].
    destruct (Py.is_empty (Py.strip s)); cbn [orb negb]; [discriminate|].
    unfold py_get at 1.
    destruct (dict_lookup "formatting" t) as [[| | | | |f]|]; try discriminate;
      intros _; cbn [bind]; rewrite label_value; reflexivity.
Qed.

Lemma process_text_item_total_witness :
  process_text_item (JDict [("text", JStr " a & b "); ("label", JStr "heading")])
  = Ok "<h3>a &amp; b</h3>"
  /\ process_text_item (JDict [("text", JStr "a"); ("formatting", JNull)])
     = Raise AttributeError
  /\ process_text_item (JDict [("text", JStr "  "); ("formatting", JNull)]) = Ok "".
Proof.
  split; [|split].
  - destruct (proj1 (process_text_item_total
                       (JDict [("text", JStr " a & b "); ("label", JStr "heading")]))
                eq_refl) as (t & s & Ev & Es & E).
    rewrite E. injection Ev as <-. injection Es as <-. reflexivity.
  - exact (proj2 (process_text_item_total
                    (JDict [("text", JStr "a"); ("formatting", JNull)])) eq_refl).
  - destruct (proj1 (process_text_item_total
                       (JDict [("text", JStr "  "); ("formatting", JNull)]))
                eq_refl) as (t & s & Ev & Es & E).
    rewrite E. injection Ev as <-. injection Es as <-. reflexivity.
Defined.

(** X10: whatever [process_text_item] returns for text that is not blank
    is the escaped trimmed text between one of seventeen fixed pairs of
    opening and closing markup; the text itself is never written
    unescaped. *)
Theorem text_fragment_wraps_escape (t f : list (string * json)) (s : string) :
  dict_lookup "text" t = Some (JStr s) ->
  py_get (JDict t) "formatting" (JDict []) = Ok (JDict f) ->
  Py.is_empty (Py.strip s) = false ->
  exists opening closing,
    In (opening, closing) text_wrappers
    /\ process_text_item (JDict t)
       = Ok (opening ++ escape_html (JStr (Py.strip s)) ++ closing)
    /\ no_raw_markup (escape_html (JStr (Py.strip s))) = true.
Proof.
  intros Htext Hfmt Hne. rewrite (process_text_item_html t f s Htext Hfmt Hne).
  set (escaped := escape_html (JStr (Py.strip s))).
  assert (R : no_raw_markup escaped = true).
  { unfold escaped. rewrite escape_html_by_char.
    apply all_chars_concat_map, escape_char_no_raw. }
  assert (Inner : exists i j,
             In (i, j) [("", ""); ("<em>", "</em>"); ("<u>", "</u>"); ("<del>", "</del>")]
             /\ emphasis f escaped = i ++ escaped ++ j).
  { unfold emphasis.
    destruct (truthy (field "italic" f));
      [exists "<em>", "</em>"; cbn; tauto|].
    destruct (truthy (field "underline" f));
      [exists "<u>", "</u>"; cbn; tauto|].
    destruct (truthy (field "strikethrough" f));
      [exists "<del>", "</del>"; cbn; tauto|].
    exists "", "". split; [cbn; tauto | now rewrite append_nil_r]. }
  destruct Inner as (i & j & Hin & Hem).
  assert (Both : forall o c,
             In (o, c) [("<h2>", "</h2>"); ("<h1>", "</h1>"); ("<h3>", "</h3>");
                        ("<p>", "</p>")] ->
             exists opening closing,
               In (opening, closing) text_wrappers
               /\ Ok (o ++ emphasis f escaped ++ c) = Ok (opening ++ escaped ++ closing)
               /\ no_raw_markup escaped = true).
  { intros o c Ho. exists (o ++ i), (j ++ c). split; [|split; [|exact R]].
    - right. apply in_flat_map. exists (o, c). split; [exact Ho|].
      apply in_map_iff. now exists (i, j).
    - rewrite Hem. f_equal. now rewrite !append_assoc. }
  unfold text_html, labelled. fold escaped.
  destruct (truthy (field "bold" f)).
  - destruct (50 <? String.length (Py.strip s))%nat.
    + apply Both. cbn. tauto.
    + exists "<p><strong>", "</strong></p>". split; [now left|]. now split.
  - destruct (is_str _ "title"); [apply Both; cbn; tauto|].
    destruct (is_str _ "heading"); apply Both; cbn; tauto.
Qed.

Lemma text_fragment_wraps_escape_witness :
  exists opening closing,
    In (opening, closing) text_wrappers
    /\ process_text_item
         (JDict [("text", JStr " 1 < 2 "); ("formatting", JDict [("underline", JInt 1)])])
       = Ok (opening ++ escape_html (JStr (Py.strip " 1 < 2 ")) ++ closing)
    /\ no_raw_markup (escape_html (JStr (Py.strip " 1 < 2 "))) = true.
Proof.
  exact (text_fragment_wraps_escape
           [("text", JStr " 1 < 2 "); ("formatting", JDict [("underline", JInt 1)])]
           [("underline", JInt 1)] " 1 < 2 " eq_refl eq_refl eq_refl).
Defined.

(** X11: on a picture node that is an object, [process_picture_item]
    returns the placeholder exactly when the node has no [data] field.  A
    [data] that is present, be it [null] or the empty string, gives, when
    it and the format are strings, integers, booleans or [null], an image
    element whose source holds the text of the format and of the data;
    the only failure then is [ValueError], raised when one of the two is
    an integer of more than 4300 digits, which the interpreter does not
    write. *)
Theorem placeholder_iff_no_data (node : list (string * json)) :
  (process_picture_item (JDict node) = Ok image_placeholder
   <-> dict_lookup "data" node = None)
  /\ (forall payload,
        dict_lookup "data" node = Some payload ->
        let format := match dict_lookup "format" node with
                      | Some format => format
                      | None => JStr "png"
                      end in
        scalar format = true ->
        scalar payload = true ->
        process_picture_item (JDict node)
        = if prints format && prints payload
          then Ok (image_element
                     ("data:image/" ++ py_str format ++ ";base64," ++ py_str payload))
          else Raise ValueError).
Proof.
  unfold process_picture_item, py_in, py_getitem, py_get, py_format.
  destruct (dict_lookup "data" node) as [payload|]; cbn [bind negb].
  - split.
    + split; [|discriminate].
      destruct (dict_lookup "format" node) as [format|]; cbn [bind];
        [destruct (prints format); cbn [bind]; [|discriminate]|cbn [prints bind]];
        (destruct (prints payload); cbn [bind]; [|discriminate]);
        intros H; injection H as H; discriminate H.
    + intros p [= <-]. cbv zeta. intros _ _.
      destruct (dict_lookup "format" node) as [format|]; cbn [bind];
        [destruct (prints format); cbn [bind andb]; [|reflexivity]|cbn [prints bind andb]];
        (destruct (prints payload); cbn [bind]; [|reflexivity]);
        unfold image_element; f_equal; str_norm.
  - split; [tauto | discriminate].
Qed.

Lemma placeholder_iff_no_data_witness :
  process_picture_item (JDict [("data", JNull)])
  = Ok (image_element "data:image/png;base64,None").
Proof.
  exact (proj2 (placeholder_iff_no_data [("data", JNull)]) JNull
           eq_refl eq_refl eq_refl).
Defined.

(** The loop over a body in two parts. *)
Lemma body_loop_app (document : json) (xs ys : list json) (html_parts : list string) :
  body_loop document (xs ++ ys) html_parts
  = (mid <- body_loop document xs html_parts ;; body_loop document ys mid).
Proof.
  revert html_parts. induction xs as [|x xs IH]; intros parts; [reflexivity|].
  cbn [body_loop app]. destruct (body_entry document x parts); cbn [bind];
    [apply IH | reflexivity].
Qed.

(** X12: the render is all or nothing.  When an entry of the body raises
    an exception the handler does not catch, [json_to_html] raises it: the
    fragments of the entries before it are lost, and the entries after it
    are not looked at. *)
Theorem first_failure_aborts (d b : list (string * json)) (pre post : list json)
  (child : json) (done : list string) (e : exn) :
  dict_lookup "body" d = Some (JDict b) ->
  dict_lookup "children" b = Some (JList (pre ++ child :: post)) ->
  body_loop (JDict d) pre [] = Ok done ->
  body_entry (JDict d) child done = Raise e ->
  json_to_html (JDict d) = Raise e
  /\ uncaught e = true.
Proof.
  intros Hb Hc Hpre Hchild.
  rewrite (json_to_html_body d b _ Hb Hc), body_loop_app, Hpre.
  cbn [bind body_loop]. rewrite Hchild. split; [reflexivity|].
  unfold body_entry in Hchild.
  destruct (py_in "$ref" child) as [[]|e0] eqn:I; cbn [bind] in Hchild.
  - destruct (py_getitem child "$ref") as [ref|e1] eqn:G; cbn [bind] in Hchild.
    + destruct (try_block ref (JDict d) done) as [|e2]; [discriminate|].
      destruct (caught e2) eqn:C; [discriminate|].
      injection Hchild as <-. unfold uncaught. now rewrite C.
    + injection Hchild as <-.
      pose proof (py_getitem_within child "$ref" I) as W. now rewrite G in W.
  - discriminate.
  - injection Hchild as <-. pose proof (py_in_within "$ref" child) as W.
    now rewrite I in W.
Qed.

Lemma first_failure_aborts_witness :
  body_loop (JDict Edge.broken_middle_fields) [pointer "#/texts/1"] [] = Ok ["<p>fine</p>"]
  /\ json_to_html (JDict Edge.broken_middle_fields) = Raise AttributeError.
Proof.
  split; [reflexivity|].
  exact (proj1 (first_failure_aborts Edge.broken_middle_fields
                  [("children", JList Edge.broken_middle_children)]
                  [pointer "#/texts/1"] [pointer "#/texts/1"] (pointer "#/texts/0")
                  ["<p>fine</p>"] AttributeError eq_refl eq_refl eq_refl eq_refl)).
Defined.

(** X13: a [body] or a [children] that is present but [null], a boolean
    or a number is no absent field: [json_to_html] raises [TypeError] on
    it instead of returning the empty string. *)
Theorem scalar_body_raises (d : list (string * json)) (v : json) :
  (match v with JNull | JBool _ | JInt _ => True | _ => False end) ->
  (dict_lookup "body" d = Some v -> json_to_html (JDict d) = Raise TypeError)
  /\ (forall b,
        dict_lookup "body" d = Some (JDict b) ->
        dict_lookup "children" b = Some v ->
        json_to_html (JDict d) = Raise TypeError).
Proof.
  intros Hv. unfold json_to_html, py_in, py_getitem. split.
  - intros ->. cbn [bind]. now destruct v.
  - intros b -> . cbn [bind]. intros ->. cbn [bind]. now destruct v.
Qed.

Lemma scalar_body_raises_witness :
  json_to_html (JDict [("body", JNull)]) = Raise TypeError
  /\ json_to_html (JDict [("body", JDict [("children", JNull)])]) = Raise TypeError.
Proof.
  split.
  - exact (proj1 (scalar_body_raises [("body", JNull)] JNull I) eq_refl).
  - exact (proj2 (scalar_body_raises [("body", JDict [("children", JNull)])] JNull I)
             [("children", JNull)] eq_refl eq_refl).
Defined.

(** ** Paths *)

Lemma split_not_nil (s : string) (sep : ascii) : Py.split s sep <> [].
Proof.
  destruct s as [|c s]; cbn [Py.split]; [discriminate|].
  destruct (Ascii.eqb c sep); [discriminate|].
  destruct (Py.split s sep); discriminate.
Qed.

Lemma split_app (a b : string) (sep : ascii) :
  Py.split (a ++ String sep b) sep = (Py.split a sep ++ Py.split b sep)%list.
Proof.
  induction a as [|c a IH]; cbn [append Py.split].
  - now rewrite Ascii.eqb_refl.
  - rewrite IH. destruct (Ascii.eqb c sep); [reflexivity|].
    destruct (Py.split a sep) as [|seg segs] eqn:S; [|reflexivity].
    now destruct (split_not_nil a sep).
Qed.

Lemma walk_app (p q : list string) (v : json) :
  walk (p ++ q) v = (x <- walk p v ;; walk q x).
Proof.
  revert v. induction p as [|part p IH]; intros v; [reflexivity|].
  cbn [app walk].
  destruct (if Py.isdigit part
            then i <- Py.int_of_str part ;; py_getitem_int v i
            else py_getitem v part) as [next|e]; cbn [bind]; [apply IH | reflexivity].
Qed.

Lemma strip_marker_slash (a b : string) :
  last_is "#" a = false ->
  Py.replace (a ++ String "/" b) "#/" ""
  = Py.replace a "#/" "" ++ String "/" (Py.replace b "#/" "").
Proof.
  intros H. rewrite strip_marker_app; [reflexivity | now rewrite H].
Qed.

Lemma resolve_reference_composes_aux (document : json) (a b : string) :
  last_is "#" a = false ->
  resolve_reference (JStr (a ++ "/" ++ b)) document
  = (found <- resolve_reference (JStr a) document ;;
     resolve_reference (JStr b) found).
Proof.
  intros H. unfold resolve_reference, py_replace. cbn [bind append].
  now rewrite (strip_marker_slash a b H), split_app, walk_app.
Qed.

(** X14: resolution composes along the separator: resolving [a/b] in a
    document is resolving [a] in it and then [b] in what was found, the
    first failure being the failure of the whole, provided [a] does not
    end in [#]. *)
Theorem resolve_reference_composes (document : json) (a b : string) :
  last_is "#" a = false ->
  resolve_reference (JStr (a ++ "/" ++ b)) document
  = (found <- resolve_reference (JStr a) document ;;
     resolve_reference (JStr b) found).
Proof.
  exact (resolve_reference_composes_aux document a b).
Qed.

Lemma resolve_reference_composes_witness :
  resolve_reference (JStr ("#/body/children" ++ "/" ++ "3")) Sample.document
  = (found <- resolve_reference (JStr "#/body/children") Sample.document ;;
     resolve_reference (JStr "3") found).
Proof.
  exact (resolve_reference_composes Sample.document "#/body/children" "3" eq_refl).
Defined.

Lemma digit_not_separator (c : ascii) :
  Py.is_digit c = true -> Ascii.eqb c "#" = false /\ Ascii.eqb c "/" = false.
Proof.
  destruct c as [[] [] [] [] [] [] [] []]; vm_compute; intros H;
    try discriminate H; split; reflexivity.
Qed.

(** A segment of digits is its own path. *)
Lemma digits_segment (part : string) :
  Py.all_chars Py.is_digit part = true ->
  Py.replace part "#/" "" = part /\ Py.split part "/" = [part].
Proof.
  intros H. split.
  - induction part as [| c | c d part IH1 IH2] using string_ind2.
    + reflexivity.
    + apply strip_marker_one.
    + rewrite strip_marker_cons2. cbn [Py.all_chars] in H.
      apply andb_true_iff in H. destruct H as [Hc H].
      destruct (digit_not_separator c Hc) as [-> _]. cbn [andb].
      now rewrite (IH2 H).
  - induction part as [|c part IH]; [reflexivity|].
    cbn [Py.all_chars] in H. apply andb_true_iff in H. destruct H as [Hc H].
    cbn [Py.split]. destruct (digit_not_separator c Hc) as [_ ->].
    now rewrite (IH H).
Qed.

Lemma decimal_is_digit (part : string) :
  Py.all_chars Py.is_decimal part = true -> Py.all_chars Py.is_digit part = true.
Proof.
  induction part as [|c part IH]; [reflexivity|]. cbn [Py.all_chars].
  intros H. apply andb_true_iff in H. destruct H as [Hc H].
  rewrite (IH H). unfold Py.is_digit. now rewrite Hc.
Qed.

Lemma resolve_digits (part : string) (v : json) :
  Py.all_chars Py.is_digit part = true ->
  resolve_reference (JStr part) v = walk [part] v.
Proof.
  intros H. unfold resolve_reference, py_replace. cbn [bind].
  destruct (digits_segment part H) as [-> ->]. reflexivity.
Qed.

Lemma decimal_value_nonneg (part : string) (acc : Z) :
  (0 <= acc)%Z -> (0 <= Py.decimal_value acc part)%Z.
Proof.
  revert acc. induction part as [|c part IH]; intros acc H; cbn [Py.decimal_value];
    [exact H|].
  apply IH. lia.
Qed.

(** A segment of decimal digits, no more than [int] reads, after a path
    that resolves to a list. *)
Lemma resolve_decimal_index (document : json) (a part : string) (xs : list json) :
  last_is "#" a = false ->
  resolve_reference (JStr a) document = Ok (JList xs) ->
  Py.all_chars Py.is_decimal part = true ->
  part <> "" ->
  (String.length part <= Py.max_str_digits)%nat ->
  resolve_reference (JStr (a ++ "/" ++ part)) document
  = match nth_error xs (Z.to_nat (Py.decimal_value 0 part)) with
    | Some x => Ok x
    | None => Raise IndexError
    end.
Proof.
  intros Ha Hres Hp Hn Hlen.
  rewrite (resolve_reference_composes_aux document a part Ha), Hres.
  cbn [bind]. rewrite (resolve_digits part _ (decimal_is_digit part Hp)).
  cbn [walk]. unfold Py.isdigit, Py.int_of_str.
  rewrite (decimal_is_digit part Hp), Hp, (proj2 (Nat.leb_le _ _) Hlen).
  destruct part; [congruence|]. cbn [Py.is_empty negb andb bind py_getitem_int].
  now destruct (nth_error xs _).
Qed.

(** A segment of decimal digits longer than [int] reads. *)
Lemma resolve_long_index (document found : json) (a part : string) :
  last_is "#" a = false ->
  resolve_reference (JStr a) document = Ok found ->
  Py.all_chars Py.is_decimal part = true ->
  (Py.max_str_digits < String.length part)%nat ->
  resolve_reference (JStr (a ++ "/" ++ part)) document = Raise ValueError.
Proof.
  intros Ha Hres Hp Hlen.
  rewrite (resolve_reference_composes_aux document a part Ha), Hres.
  cbn [bind]. rewrite (resolve_digits part _ (decimal_is_digit part Hp)).
  cbn [walk]. unfold Py.isdigit, Py.int_of_str.
  rewrite (decimal_is_digit part Hp), Hp.
  apply Nat.leb_gt in Hlen. rewrite Hlen.
  destruct part; [discriminate Hlen|]. reflexivity.
Qed.

(** X15: a segment of decimal digits after a path that resolves to a list
    selects the element at the number it spells, counted from zero, as
    long as it has no more than 4300 digits, the most [int] reads: within
    that length leading zeros do not matter, the number is never negative
    (no segment counts from the end), and an index at or past the length
    of the list raises [IndexError].  A longer segment, leading zeros
    counted, raises [ValueError]. *)
Theorem decimal_segment_indexes (document : json) (a part : string) (xs : list json) :
  last_is "#" a = false ->
  resolve_reference (JStr a) document = Ok (JList xs) ->
  Py.all_chars Py.is_decimal part = true ->
  part <> "" ->
  let index := Py.decimal_value 0 part in
  ((String.length part <= Py.max_str_digits)%nat ->
   resolve_reference (JStr (a ++ "/" ++ part)) document
   = match nth_error xs (Z.to_nat index) with
     | Some x => Ok x
     | None => Raise IndexError
     end)
  /\ (0 <= index)%Z
  /\ ((String.length part < Py.max_str_digits)%nat ->
      resolve_reference (JStr (a ++ "/" ++ String "0" part)) document
      = resolve_reference (JStr (a ++ "/" ++ part)) document)
  /\ ((Py.max_str_digits < String.length part)%nat ->
      resolve_reference (JStr (a ++ "/" ++ part)) document = Raise ValueError).
Proof.
  intros Ha Hres Hdec Hne index.
  split; [intros Hlen; now apply resolve_decimal_index|].
  split; [now apply decimal_value_nonneg|].
  split.
  - intros Hlen.
    rewrite (resolve_decimal_index document a part xs Ha Hres Hdec Hne);
      [|apply Nat.lt_le_incl; exact Hlen].
    rewrite (resolve_decimal_index document a (String "0" part) xs Ha Hres);
      [reflexivity | | discriminate | exact Hlen].
    cbn [Py.all_chars]. now rewrite Hdec.
  - intros Hlen. exact (resolve_long_index document _ a part Ha Hres Hdec Hlen).
Qed.

Lemma decimal_segment_indexes_witness :
  resolve_reference (JStr ("#/texts" ++ "/" ++ "01")) Sample.document
  = Ok (Sample.text_node "bold one" Sample.bold "paragraph")
  /\ resolve_reference (JStr ("#/texts" ++ "/" ++ "3")) Sample.document
     = Raise IndexError.
Proof.
  split.
  - refine (proj1 (decimal_segment_indexes Sample.document "#/texts" "01" _
                     eq_refl eq_refl eq_refl _) _);
      [discriminate | unfold Py.max_str_digits; cbn; lia].
  - refine (proj1 (decimal_segment_indexes Sample.document "#/texts" "3" _
                     eq_refl eq_refl eq_refl _) _);
      [discriminate | unfold Py.max_str_digits; cbn; lia].
Defined.

(** X16: a segment that [isdigit] accepts and [int] refuses, one with a
    superscript digit, makes the resolution raise [ValueError] wherever
    the path before it leads; the handler does not catch it, and the
    entry raises it out of the loop. *)
Theorem superscript_segment_raises (document found : json) (a part : string) :
  last_is "#" a = false ->
  resolve_reference (JStr a) document = Ok found ->
  Py.isdigit part = true ->
  Py.all_chars Py.is_decimal part = false ->
  resolve_reference (JStr (a ++ "/" ++ part)) document = Raise ValueError
  /\ (forall c parts,
        dict_lookup "$ref" c = Some (JStr (a ++ "/" ++ part)) ->
        body_entry document (JDict c) parts = Raise ValueError).
Proof.
  intros Ha Hres Hdig Hdec.
  assert (R : resolve_reference (JStr (a ++ "/" ++ part)) document = Raise ValueError).
  { rewrite (resolve_reference_composes_aux document a part Ha), Hres. cbn [bind].
    pose proof Hdig as Hall. unfold Py.isdigit in Hall.
    apply andb_true_iff in Hall. destruct Hall as [_ Hall].
    rewrite (resolve_digits part _ Hall). cbn [walk].
    rewrite Hdig. unfold Py.int_of_str. rewrite Hdec. reflexivity. }
  split; [exact R|].
  intros c parts Href. unfold body_entry, py_in, py_getitem. rewrite Href.
  cbn [bind]. unfold try_block. now rewrite R.
Qed.

Lemma superscript_segment_raises_witness :
  resolve_reference (JStr ("#/texts" ++ "/" ++ String (ascii_of_nat 178) ""))
    Sample.document
  = Raise ValueError.
Proof.
  exact (proj1 (superscript_segment_raises Sample.document _ "#/texts"
                  (String (ascii_of_nat 178) "") eq_refl eq_refl eq_refl eq_refl)).
Defined.

(** ** Trimming *)

Lemma lstrip_head (s : string) :
  match Py.lstrip s with
  | EmptyString => True
  | String c _ => Py.is_space c = false
  end.
Proof.
  induction s as [|c s IH]; cbn [Py.lstrip]; [exact I|].
  destruct (Py.is_space c) eqn:E; [exact IH | exact E].
Qed.

Lemma rstrip_head (c : ascii) (s : string) :
  Py.is_space c = false -> exists kept, Py.rstrip (String c s) = String c kept.
Proof.
  intros E. cbn [Py.rstrip]. destruct (Py.rstrip s); rewrite ?E; eauto.
Qed.

Lemma rstrip_idempotent (s : string) : Py.rstrip (Py.rstrip s) = Py.rstrip s.
Proof.
  induction s as [|c s IH]; [reflexivity|]. cbn [Py.rstrip].
  destruct (Py.rstrip s) as [|d kept] eqn:R.
  - destruct (Py.is_space c) eqn:E; [reflexivity|]. cbn [Py.rstrip]. now rewrite E.
  - cbn [Py.rstrip] in *. now rewrite IH.
Qed.

Lemma strip_idempotent (s : string) : Py.strip (Py.strip s) = Py.strip s.
Proof.
  unfold Py.strip. pose proof (lstrip_head s) as H.
  destruct (Py.lstrip s) as [|c u] eqn:L; [reflexivity|].
  destruct (rstrip_head c u H) as [kept R]. rewrite R.
  cbn [Py.lstrip]. rewrite H, <- R. apply rstrip_idempotent.
Qed.

(** X17: white space around the text of a node never matters: a text
    node renders, or fails, as the node with the trimmed text and the
    same formatting and label does. *)
Theorem surrounding_whitespace_ignored (t t' : list (string * json)) (s : string) :
  dict_lookup "text" t = Some (JStr s) ->
  dict_lookup "text" t' = Some (JStr (Py.strip s)) ->
  dict_lookup "formatting" t' = dict_lookup "formatting" t ->
  dict_lookup "label" t' = dict_lookup "label" t ->
  process_text_item (JDict t') = process_text_item (JDict t)
  /\ Py.strip (Py.strip s) = Py.strip s.
Proof.
  intros Ht Ht' Hf Hl. split; [|apply strip_idempotent].
  unfold process_text_item, py_get. rewrite Ht, Ht', Hf, Hl.
  cbn [bind py_strip]. now rewrite strip_idempotent.
Qed.

Lemma surrounding_whitespace_ignored_witness :
  process_text_item (JDict [("text", JStr "a  b"); ("label", JStr "title")])
  = process_text_item (JDict [("label", JStr "title"); ("text", JStr "  a  b ")]).
Proof.
  exact (proj1 (surrounding_whitespace_ignored
                  [("label", JStr "title"); ("text", JStr "  a  b ")]
                  [("text", JStr "a  b"); ("label", JStr "title")]
                  "  a  b " eq_refl eq_refl eq_refl eq_refl)).
Defined.

(** ** The cells of a table, whatever they are *)

Lemma bound_above_one : (1 <? str_digits_bound)%Z = true.
Proof. vm_compute. reflexivity. Qed.

Lemma format_span (n : Z) :
  (1 <? n)%Z = true -> within_str_digits n = (n <? str_digits_bound)%Z.
Proof.
  intros H. apply Z.ltb_lt in H. unfold within_str_digits.
  now rewrite Z.abs_eq by lia.
Qed.

Lemma small_span_prints (n : Z) :
  (1 <? n)%Z = false -> (n <? str_digits_bound)%Z = true.
Proof.
  intros H. apply Z.ltb_ge in H. pose proof bound_above_one as B.
  apply Z.ltb_lt in B. apply Z.ltb_lt. lia.
Qed.

(** X18: [table_cell], the body of the cell loop of [process_table_item],
    on cells made of objects, lists, strings, integers, booleans and
    [null].  On an object whose [text] is a string or left out it looks
    at the row span, then at the column span: a span that is a string,
    [null], a list or an object raises [TypeError]; an integer span of
    more than 4300 digits above 1 raises [ValueError]; otherwise the line
    of the cell is returned, a boolean span writing no attribute, like a
    span left out.  A [text] that is no string, and a cell that is no
    object, raise [AttributeError]. *)
Theorem table_cell_total :
  (forall c s,
     py_get (JDict c) "text" (JStr "") = Ok (JStr s) ->
     table_cell (JDict c)
     = if bad_span (dict_lookup "row_span" c) then Raise TypeError
       else if negb (span_prints (dict_lookup "row_span" c)) then Raise ValueError
       else if bad_span (dict_lookup "col_span" c) then Raise TypeError
       else if negb (span_prints (dict_lookup "col_span" c)) then Raise ValueError
       else Ok (cell_line s
                  (truthy (field "column_header" c) || truthy (field "row_header" c))
                  (span_value (dict_lookup "row_span" c))
                  (span_value (dict_lookup "col_span" c))))
  /\ (forall c v,
        dict_lookup "text" c = Some v ->
        (forall s, v <> JStr s) ->
        table_cell (JDict c) = Raise AttributeError)
  /\ (forall cell,
        (forall c, cell <> JDict c) ->
        table_cell cell = Raise AttributeError).
Proof.
  split; [|split].
  - intros c s Htext. unfold table_cell. rewrite Htext. cbn [bind py_strip].
    destruct (header_flag_default c "column_header") as [E1 T1].
    destruct (header_flag_default c "row_header") as [E2 T2].
    rewrite E1. cbn [bind]. rewrite T1, E2.
    unfold py_get, cell_line, span_attr, py_format.
    destruct (truthy (field "column_header" c)); cbn [bind orb]; rewrite ?T2;
      destruct (truthy (field "row_header" c));
      destruct (dict_lookup "row_span" c) as [[| |r| | |]|];
      destruct (dict_lookup "col_span" c) as [[| |k| | |]|];
      cbn [bad_span span_prints span_value bind py_gt_one negb prints py_str py_repr];
      change (1 <? 1)%Z with false; cbv iota; cbn [bind];
      try reflexivity;
      repeat match goal with
             | |- context [(1 <? ?n)%Z] =>
                 is_var n;
                 let H := fresh "H" in
                 destruct (1 <? n)%Z eqn:H;
                 [rewrite ?(format_span n H) | rewrite ?(small_span_prints n H)];
                 cbn [bind negb]
             end;
      repeat match goal with
             | |- context [(?n <? str_digits_bound)%Z] =>
                 destruct (n <? str_digits_bound)%Z; cbn [bind negb]
             end;
      try reflexivity; f_equal; str_norm.
  - intros c v Hv Hs. unfold table_cell, py_get. rewrite Hv. cbn [bind].
    destruct v; try reflexivity. now destruct (Hs s).
  - intros cell Hc. destruct cell; try reflexivity. now destruct (Hc kvs).
Qed.

Lemma table_cell_total_witness :
  table_cell (JDict [("text", JStr "x"); ("row_span", JBool true)]) = Ok "    <td>x</td>"
  /\ table_cell (JDict [("text", JStr "x"); ("row_span", JStr "2")]) = Raise TypeError
  /\ table_cell (JDict [("text", JInt 7)]) = Raise AttributeError.
Proof.
  split; [|split].
  - exact (proj1 table_cell_total
             [("text", JStr "x"); ("row_span", JBool true)] "x" eq_refl).
  - exact (proj1 table_cell_total
             [("text", JStr "x"); ("row_span", JStr "2")] "x" eq_refl).
  - refine (proj1 (proj2 table_cell_total) [("text", JInt 7)] (JInt 7) eq_refl _).
    discriminate.
Defined.

(** ** Pointers into the three collections *)

(** X19: a pointer [#/texts/n], [#/tables/n] or [#/pictures/n], with [n]
    in decimal digits, no more than the 4300 that [int] reads, into a
    collection that is a list with an element at [n], renders that element
    with the renderer of the collection and appends the fragment;
    whatever the renderer raises, the entry raises. *)
Theorem typed_pointer_renders_element (d : list (string * json)) (kind part : string)
  (xs : list json) (x : json) :
  In kind ["texts"; "tables"; "pictures"] ->
  dict_lookup kind d = Some (JList xs) ->
  Py.all_chars Py.is_decimal part = true ->
  part <> "" ->
  (String.length part <= Py.max_str_digits)%nat ->
  nth_error xs (Z.to_nat (Py.decimal_value 0 part)) = Some x ->
  forall parts,
    body_entry (JDict d) (pointer ("#/" ++ kind ++ "/" ++ part)) parts
    = (html <- renderer_of kind x ;; Ok (parts ++ [html])%list).
Proof.
  intros Hkind Hcoll Hdec Hne Hlen Hnth parts.
  assert (R : resolve_reference (JStr (("#/" ++ kind) ++ "/" ++ part)) (JDict d) = Ok x).
  { rewrite (resolve_decimal_index (JDict d) ("#/" ++ kind) part xs);
      [now rewrite Hnth | | | exact Hdec | exact Hne | exact Hlen].
    - destruct Hkind as [<-|[<-|[<-|[]]]]; reflexivity.
    - destruct Hkind as [<-|[<-|[<-|[]]]];
        unfold resolve_reference; cbn; now rewrite Hcoll. }
  unfold body_entry, pointer.
  change (py_in "$ref" (JDict [("$ref", JStr ("#/" ++ kind ++ "/" ++ part))]))
    with (Ok (A:=bool) true).
  cbn [bind].
  change (py_getitem (JDict [("$ref", JStr ("#/" ++ kind ++ "/" ++ part))]) "$ref")
    with (Ok (JStr ("#/" ++ kind ++ "/" ++ part))).
  cbn [bind]. unfold try_block.
  replace ("#/" ++ kind ++ "/" ++ part) with (("#/" ++ kind) ++ "/" ++ part)
    by (now rewrite append_assoc).
  rewrite R. cbn [bind py_startswith]. unfold Py.startswith.
  destruct Hkind as [<-|[<-|[<-|[]]]]; cbn [append prefix ascii_dec];
    unfold renderer_of.
  - cbn. rewrite prefix_empty. cbn [bind].
    pose proof (process_text_item_within x) as W.
    destruct (process_text_item x) as [|e]; [reflexivity|].
    cbn in W. unfold uncaught in W. apply negb_true_iff in W. cbn [bind]. now rewrite W.
  - cbn. rewrite prefix_empty. cbn [bind].
    pose proof (process_table_item_within x) as W.
    destruct (process_table_item x) as [|e]; [reflexivity|].
    cbn in W. unfold uncaught in W. apply negb_true_iff in W. cbn [bind]. now rewrite W.
  - cbn. rewrite prefix_empty. cbn [bind].
    pose proof (process_picture_item_within x) as W.
    destruct (process_picture_item x) as [|e]; [reflexivity|].
    cbn in W. unfold uncaught in W. apply negb_true_iff in W. cbn [bind]. now rewrite W.
Qed.

Lemma typed_pointer_renders_element_witness :
  body_entry Sample.document (pointer ("#/" ++ "pictures" ++ "/" ++ "0")) ["<p>before</p>"]
  = (html <- process_picture_item Sample.picture ;; Ok (["<p>before</p>"] ++ [html])%list).
Proof.
  refine (typed_pointer_renders_element Sample.fields "pictures" "0" [Sample.picture]
            Sample.picture _ eq_refl eq_refl _ _ eq_refl ["<p>before</p>"]).
  - cbn. tauto.
  - discriminate.
  - unfold Py.max_str_digits. cbn. lia.
Defined.
